(** * Blogicum: visibility and ownership policy of the blog views

    A shallow embedding of [blog/functions.py], [blog/forms.py],
    [blog/urls.py] and [blog/views.py].  Tables are lists of rows, a view is
    a function from the clock, the database and the request to a response
    and the database it leaves behind.  Python dictionaries ([self.kwargs],
    [request.POST]) are finite maps with string keys. *)

From stdpp Require Import gmap strings list fin_maps pretty sorting.
From Stdlib Require Import ZArith Lia Ascii Sorting.Sorted Sorting.Permutation.

Open Scope Z_scope.

(** ** Python values and exceptions *)

(** The values that travel in URL keyword arguments and in a submitted form:
    the [int] path converter gives [PInt], the [slug] converter and text
    inputs give [PStr], a checkbox gives [PBool]. *)
Inductive pyval :=
| PInt (n : Z)
| PStr (s : string)
| PBool (b : bool).

#[global] Instance pyval_eq_dec : EqDecision pyval.
Proof. solve_decision. Defined.

Inductive exn :=
| Http404
| MultipleObjectsReturned
| KeyError (key : string)
| ValueError
| OverflowError
| AttributeError
| FieldError
| NoReverseMatch.

#[global] Instance exn_eq_dec : EqDecision exn.
Proof. solve_decision. Defined.

(** A computation that returns or raises. *)
Inductive result (A : Type) :=
| Ok (a : A)
| Raise (e : exn).
Arguments Ok {A} a.
Arguments Raise {A} e.

#[global] Instance result_ret : MRet result := fun A a => Ok a.
#[global] Instance result_bind : MBind result := fun A B f m =>
  match m with
  | Ok a => f a
  | Raise e => Raise e
  end.

(** [d[key]] on a Python dict. *)
Definition getitem (d : gmap string pyval) (key : string) : result pyval :=
  match d !! key with
  | Some v => Ok v
  | None => Raise (KeyError key)
  end.

(** ** Data model *)

Module Models.

(** Modelled from the spec: [blog/models.py] is not part of the sources;
    the rows carry the attributes section 3 of the specification lists.
    Foreign keys hold the primary key of the row they point to. *)
Record User := {
  user_id : Z;
  username : string;
  first_name : string;
  last_name : string;
  email : string }.

Record Category := {
  category_id : Z;
  slug : string;
  category_title : string;
  category_is_published : bool }.

Record Location := {
  location_id : Z;
  location_name : string }.

Record Post := {
  post_id : Z;
  title : string;
  text : string;
  pub_date : Z;
  is_published : bool;
  author : Z;
  category : Z;
  location : option Z }.

(** The source stores the parent post of a comment with
    [form.instance.comments = self.post_obj] and reaches the comments of a
    post as [post.comments]: [comments] is the relation between the two
    tables, kept here as the post's key in the comment row. *)
Record Comment := {
  comment_id : Z;
  comment_text : string;
  comment_author : Z;
  comments : Z;
  created_at : Z }.

Record DB := {
  users : list User;
  categories : list Category;
  locations : list Location;
  posts : list Post;
  comment_rows : list Comment;
  post_seq : Z;
  comment_seq : Z }.

#[global] Instance User_eq_dec : EqDecision User.
Proof. solve_decision. Defined.
#[global] Instance Category_eq_dec : EqDecision Category.
Proof. solve_decision. Defined.
#[global] Instance Post_eq_dec : EqDecision Post.
Proof. solve_decision. Defined.
#[global] Instance Comment_eq_dec : EqDecision Comment.
Proof. solve_decision. Defined.

End Models.
Import Models.

(** ** Query sets *)

Module ORM.

(** [get_object_or_404(klass, **lookup)] on the rows the lookup keeps:
    [QuerySet.get] wants exactly one row. *)
Definition get_object_or_404 {A : Type} (queryset : list A) : result A :=
  match queryset with
  | [] => Raise Http404
  | [obj] => Ok obj
  | _ :: _ :: _ => Raise MultipleObjectsReturned
  end.

(** The value of an integer lookup such as [id=...].  The URLconf fills the
    keys that are looked up this way through its [int] converter, which
    hands over a [PInt]; for a text the lookup raises [ValueError] (Python
    would first try to read a number in it). *)
Definition to_int (v : pyval) : result Z :=
  match v with
  | PInt n => Ok n
  | PBool b => Ok (if b then 1 else 0)
  | PStr _ => Raise ValueError
  end.

(** The keys of a table are 64-bit integers. *)
Definition fits_int64 (n : Z) : bool := (- 2 ^ 63 <=? n) && (n <? 2 ^ 63).

(** [get_object_or_404(klass, id=n)] and [queryset.filter(pk=n).get()].
    Binding an integer beyond 64 bits to the query fails with
    [OverflowError] before the table is read.  A table stores no such key;
    the model keeps the rows it is given and raises when the lookup of a
    wider key finds none of them. *)
Definition get_by_key_or_404 {A : Type} (pk : A -> Z) (n : Z) (table : list A)
    : result A :=
  match List.filter (fun row => pk row =? n) table with
  | [] => if fits_int64 n then Raise Http404 else Raise OverflowError
  | rows => get_object_or_404 rows
  end.

(** [Count('comments')]: the comment rows whose post is [p]. *)
Definition comment_count (db : DB) (p : Post) : Z :=
  Z.of_nat (List.length (List.filter (fun c => comments c =? post_id p) (comment_rows db))).

(** [.annotate(comment_count=Count('comments'))]. *)
Definition annotate (db : DB) (queryset : list Post) : list (Post * Z) :=
  List.map (fun p => (p, comment_count db p)) queryset.

(** [.order_by('-pub_date')]: newest first, rows of equal date in the order
    of the table. *)
Fixpoint insert_desc (x : Post * Z) (l : list (Post * Z)) : list (Post * Z) :=
  match l with
  | [] => [x]
  | y :: l' =>
      if pub_date (fst y) <=? pub_date (fst x) then x :: l
      else y :: insert_desc x l'
  end.

Definition order_by_pub_date_desc (queryset : list (Post * Z)) : list (Post * Z) :=
  List.fold_right insert_desc [] queryset.

(** [category__is_published=True]: the join on the category row. *)
Definition category_of (db : DB) (p : Post) : option Category :=
  List.find (fun c => category_id c =? category p) (categories db).

Definition post_category_is_published (db : DB) (p : Post) : bool :=
  match category_of db p with
  | Some c => category_is_published c
  | None => false
  end.

(** [Model.save()] of a new row: the key comes from the sequence of the
    table. *)
Definition insert_post (db : DB) (obj : Post) : Post * DB :=
  let pk := post_seq db + 1 in
  let row := {| post_id := pk; title := title obj; text := text obj;
                pub_date := pub_date obj; is_published := is_published obj;
                author := author obj; category := category obj;
                location := location obj |} in
  (row, {| users := users db; categories := categories db;
           locations := locations db; posts := posts db ++ [row];
           comment_rows := comment_rows db;
           post_seq := pk; comment_seq := comment_seq db |}).

Definition insert_comment (db : DB) (obj : Comment) : Comment * DB :=
  let pk := comment_seq db + 1 in
  let row := {| comment_id := pk; comment_text := comment_text obj;
                comment_author := comment_author obj; comments := comments obj;
                created_at := created_at obj |} in
  (row, {| users := users db; categories := categories db;
           locations := locations db; posts := posts db;
           comment_rows := comment_rows db ++ [row];
           post_seq := post_seq db; comment_seq := pk |}).

(** [Model.save()] of a row that has a key: the row of that key is
    overwritten. *)
Definition update_post (db : DB) (obj : Post) : DB :=
  {| users := users db; categories := categories db; locations := locations db;
     posts := List.map (fun p => if post_id p =? post_id obj then obj else p) (posts db);
     comment_rows := comment_rows db;
     post_seq := post_seq db; comment_seq := comment_seq db |}.

Definition update_comment (db : DB) (obj : Comment) : DB :=
  {| users := users db; categories := categories db; locations := locations db;
     posts := posts db;
     comment_rows :=
       List.map (fun c => if comment_id c =? comment_id obj then obj else c) (comment_rows db);
     post_seq := post_seq db; comment_seq := comment_seq db |}.

Definition update_user (db : DB) (obj : User) : DB :=
  {| users := List.map (fun u => if user_id u =? user_id obj then obj else u) (users db);
     categories := categories db; locations := locations db; posts := posts db;
     comment_rows := comment_rows db;
     post_seq := post_seq db; comment_seq := comment_seq db |}.

(** [Model.delete()].  The comments of a deleted post go with it (the
    relation is taken to cascade). *)
Definition delete_post_row (db : DB) (obj : Post) : DB :=
  {| users := users db; categories := categories db; locations := locations db;
     posts := List.filter (fun p => negb (post_id p =? post_id obj)) (posts db);
     comment_rows :=
       List.filter (fun c => negb (comments c =? post_id obj)) (comment_rows db);
     post_seq := post_seq db; comment_seq := comment_seq db |}.

Definition delete_comment_row (db : DB) (obj : Comment) : DB :=
  {| users := users db; categories := categories db; locations := locations db;
     posts := posts db;
     comment_rows :=
       List.filter (fun c => negb (comment_id c =? comment_id obj)) (comment_rows db);
     post_seq := post_seq db; comment_seq := comment_seq db |}.

(** [post.author == request.user]: rows of one model are equal when their
    keys are; [AnonymousUser] equals no row. *)
Definition is_user (author_id : Z) (u : option User) : bool :=
  match u with
  | Some u => author_id =? user_id u
  | None => false
  end.

End ORM.
Import ORM.

(** ** Time *)

(** Time stamps count the seconds of the project clock; [__date] keeps the
    calendar day of a time stamp. *)
Definition SECONDS_PER_DAY : Z := 86400.

Definition date (t : Z) : Z := t / SECONDS_PER_DAY.

(** ** URL configuration: [blog/urls.py] *)

Module Urls.

Inductive UrlName :=
| index
| post_detail
| category_posts
| edit_profile
| profile
| create_post
| edit_post
| delete_post
| add_comment
| edit_comment
| delete_comment.

#[global] Instance UrlName_eq_dec : EqDecision UrlName.
Proof. solve_decision. Defined.

Inductive converter := conv_int | conv_slug.

Inductive segment :=
| lit (s : string)
| conv (c : converter) (kwarg : string).

(** The route of each entry of [urlpatterns]. *)
Definition route (name : UrlName) : list segment :=
  match name with
  | index => []
  | post_detail => [lit "posts/"; conv conv_int "post_id"; lit "/"]
  | category_posts => [lit "category/"; conv conv_slug "category_slug"; lit "/"]
  | edit_profile => [lit "profile/edit/"]
  | profile => [lit "profile/"; conv conv_slug "username"; lit "/"]
  | create_post => [lit "posts/create/"]
  | edit_post => [lit "posts/"; conv conv_int "post_id"; lit "/edit/"]
  | delete_post => [lit "posts/"; conv conv_int "post_id"; lit "/delete/"]
  | add_comment => [lit "posts/"; conv conv_int "post_id"; lit "/comment/"]
  | edit_comment =>
      [lit "posts/"; conv conv_int "post_id"; lit "/";
       conv conv_int "comment_id"; lit "/eit_comment/"]
  | delete_comment =>
      [lit "posts/"; conv conv_int "post_id"; lit "/delete_comment/";
       conv conv_int "comment_id"; lit "/"]
  end.

Definition between (lo hi : nat) (c : ascii) : bool :=
  (lo <=? nat_of_ascii c)%nat && (nat_of_ascii c <=? hi)%nat.

Definition is_digit (c : ascii) : bool := between 48 57 c.

(** A character of the class [[-a-zA-Z0-9_]]. *)
Definition is_slug_char (c : ascii) : bool :=
  is_digit c || between 65 90 c || between 97 122 c
  || bool_decide (c = "-"%char) || bool_decide (c = "_"%char).

Definition nonempty_all (f : ascii -> bool) (s : string) : bool :=
  negb (bool_decide (s = "")) && forallb f (String.list_ascii_of_string s).

(** [str(value)]. *)
Definition str (v : pyval) : string :=
  match v with
  | PInt n => pretty n
  | PStr s => s
  | PBool b => if b then "True" else "False"
  end.

(** The text a converter puts in the path, when the pattern of the
    converter matches it: [[0-9]+] for [int], [[-a-zA-Z0-9_]+] for [slug]. *)
Definition to_url (c : converter) (v : pyval) : option string :=
  match c, v with
  | conv_int, PInt n => if 0 <=? n then Some (pretty n) else None
  | conv_int, PStr s => if nonempty_all is_digit s then Some s else None
  | conv_int, PBool _ => None
  | conv_slug, _ => if nonempty_all is_slug_char (str v) then Some (str v) else None
  end.

Fixpoint build (r : list segment) (kwargs : gmap string pyval) : option string :=
  match r with
  | [] => Some ""
  | lit s :: r' => (fun rest => s +:+ rest) <$> build r' kwargs
  | conv c k :: r' =>
      v ← kwargs !! k;
      s ← to_url c v;
      (fun rest => s +:+ rest) <$> build r' kwargs
  end.

Definition is_conv (s : segment) : bool :=
  match s with
  | conv _ _ => true
  | lit _ => false
  end.

(** [reverse('blog:name', kwargs=...)]: the keyword arguments must be the
    parameters of the route, each accepted by its converter. *)
Definition reverse (name : UrlName) (kwargs : gmap string pyval) : result string :=
  if bool_decide (size kwargs = List.length (List.filter is_conv (route name))) then
    match build (route name) kwargs with
    | Some p => Ok ("/" +:+ p)
    | None => Raise NoReverseMatch
    end
  else Raise NoReverseMatch.

(** The path of the detail page of the post with key [n]. *)
Definition post_detail_url (n : Z) : string := "/posts/" +:+ pretty n +:+ "/".

End Urls.
Import Urls.

(** ** Requests and responses *)

Module Http.

Inductive Method := GET | POST.

(** [user] is [None] for [AnonymousUser].  [path] is what
    [get_full_path()] returns.  In [query] ([request.GET]) and in [data]
    ([request.POST]) a [PInt n] stands for a text that reads as the number
    or the time stamp [n], a [PStr s] for any other text. *)
Record HttpRequest := {
  method : Method;
  user : option User;
  path : string;
  query : gmap string pyval;
  data : gmap string pyval }.

(** The same request with another query string. *)
Definition with_query (request : HttpRequest) (q : gmap string pyval) : HttpRequest :=
  {| method := method request; user := user request; path := path request;
     query := q; data := data request |}.

(** A model form handed to a template: the row it edits, if any, and the
    submitted payload when it is shown again with its errors. *)
Record Form (A : Type) := {
  instance : option A;
  bound : option (gmap string pyval) }.
Arguments instance {A} _.
Arguments bound {A} _.

Inductive Context :=
| IndexContext (page_obj : list (Post * Z))
| CategoryContext (page_obj : list (Post * Z)) (category : Category)
| ProfileContext (page_obj : list (Post * Z)) (profile : User)
| DetailContext (object : Post) (comments : list Comment)
| ProfileFormContext (form : Form User)
| PostFormContext (form : Form Post)
| PostDeleteContext (object : Post)
| CommentFormContext (form : Form Comment)
| CommentDeleteContext (object : Comment).

Inductive HttpResponse :=
| TemplateResponse (template_name : string) (context : Context)
| HttpResponseRedirect (redirect_to : string)
| RedirectToLogin (next : string)
| HttpResponseNotFound
| HttpResponseNotAllowed
| HttpResponseServerError (e : exn).

(** What the handler of the framework makes of an exception that leaves a
    view. *)
Definition response_for_exception (e : exn) : HttpResponse :=
  match e with
  | Http404 => HttpResponseNotFound
  | _ => HttpResponseServerError e
  end.

(** [redirect('blog:name', **kwargs)]. *)
Definition redirect (name : UrlName) (kwargs : gmap string pyval) : result HttpResponse :=
  url ← reverse name kwargs; Ok (HttpResponseRedirect url).

(** [LoginRequiredMixin.dispatch]: an anonymous request is sent to the
    login page with its own path as the [next] parameter. *)
Definition LoginRequiredMixin_dispatch {A : Type}
    (request : HttpRequest) (no_permission : HttpResponse -> A)
    (dispatch : User -> A) : A :=
  match user request with
  | None => no_permission (RedirectToLogin (path request))
  | Some u => dispatch u
  end.

(** *** Pagination *)

Definition paginate_by : nat := 10.

(** [Paginator.num_pages], with [allow_empty_first_page]. *)
Definition num_pages (count : nat) : Z :=
  Z.max 1 ((Z.of_nat count + Z.of_nat paginate_by - 1) / Z.of_nat paginate_by).

(** Truth value of a keyword argument and of a query text. *)
Definition truthy_kwarg (v : pyval) : bool :=
  match v with
  | PInt n => negb (n =? 0)
  | PStr s => negb (bool_decide (s = ""))
  | PBool b => b
  end.

Definition truthy_text (v : pyval) : bool :=
  match v with
  | PStr s => negb (bool_decide (s = ""))
  | _ => true
  end.

(** [page = self.kwargs.get('page') or self.request.GET.get('page') or 1]. *)
Definition requested_page (kwargs : gmap string pyval) (request : HttpRequest) : pyval :=
  match kwargs !! "page" with
  | Some v => if truthy_kwarg v then v else
      match query request !! "page" with
      | Some w => if truthy_text w then w else PInt 1
      | None => PInt 1
      end
  | None =>
      match query request !! "page" with
      | Some w => if truthy_text w then w else PInt 1
      | None => PInt 1
      end
  end.

(** [MultipleObjectMixin.paginate_queryset]: the rows of the requested
    page, [Http404] for a page that is not a number or not in range. *)
Definition paginate_queryset {A : Type} (kwargs : gmap string pyval)
    (request : HttpRequest) (queryset : list A) : result (list A) :=
  let last := num_pages (List.length queryset) in
  number ← match requested_page kwargs request with
           | PInt n => Ok n
           | PBool b => Ok (if b then 1 else 0)
           | PStr s => if bool_decide (s = "last") then Ok last else Raise Http404
           end;
  if (number <? 1) || (last <? number) then Raise Http404
  else Ok (take paginate_by (drop (Z.to_nat (number - 1) * paginate_by) queryset)).

End Http.
Import Http.

(** ** [blog/functions.py] *)

Module Functions.

(** [get_post]: the rows with [is_published=True], whose category has
    [is_published=True], and whose [pub_date__date] is [lt] today's date. *)
Definition get_post (now : Z) (db : DB) (posts : list Post) : list Post :=
  List.filter
    (fun p => is_published p
              && post_category_is_published db p
              && (date (pub_date p) <? date now))
    posts.

End Functions.
Import Functions.

(** ** [blog/forms.py] *)

Module Forms.

(** Modelled from the spec: the editable fields of the models, which
    [blog/models.py] declares. *)
Definition Post_fields : list string :=
  ["title"; "text"; "pub_date"; "is_published"; "author"; "category"; "location"].

(** What a valid [PostForm] hands to the row. *)
Record PostData := {
  d_title : string;
  d_text : string;
  d_pub_date : Z;
  d_is_published : bool;
  d_category : Z;
  d_location : option Z }.

Record UserData := {
  d_username : string;
  d_first_name : string;
  d_last_name : string;
  d_email : string }.

(** What a form has accepted when it refuses a payload: the cleaned value
    of each field that passed its own cleaning, [None] for the others. *)
Record PostAccepted := {
  a_title : option string;
  a_text : option string;
  a_pub_date : option Z;
  a_is_published : option bool;
  a_category : option Z;
  a_location : option (option Z) }.

Record UserAccepted := {
  a_username : option string;
  a_first_name : option string;
  a_last_name : option string;
  a_email : option string }.

(** The validators of the model fields are declared in [blog/models.py] and
    in the user model; they are a parameter.  Each one reads the submitted
    values of the fields it is given and returns the cleaned values, or
    [None] when a value is refused; [accepted_Post] and [accepted_User]
    give the values of the fields that passed when the payload as a whole
    is refused. *)
Record Validators := {
  clean_Post : DB -> gmap string pyval -> option PostData;
  clean_Comment : gmap string pyval -> option string;
  clean_User : DB -> User -> gmap string pyval -> option UserData;
  accepted_Post : DB -> gmap string pyval -> PostAccepted;
  accepted_User : DB -> User -> gmap string pyval -> UserAccepted }.

(** A form reads the submitted values of its own fields only. *)
Definition value_from_datadict (fields : list string) (data : gmap string pyval)
    : gmap string pyval :=
  filter (fun kv => kv.1 ∈ fields) data.

Section Forms.
Context (V : Validators).

(** [class PostForm]: [model = Post], [exclude = ('author',)]. *)
Definition PostForm_exclude : list string := ["author"].

Definition PostForm_fields : list string :=
  List.filter (fun f => bool_decide (f ∉ PostForm_exclude)) Post_fields.

Definition PostForm_is_valid (db : DB) (data : gmap string pyval) : option PostData :=
  clean_Post V db (value_from_datadict PostForm_fields data).

(** [construct_instance]: the cleaned values go to the fields of the form,
    the other attributes of the row stay. *)
Definition PostForm_construct_instance (obj : Post) (cleaned : PostData) : Post :=
  {| post_id := post_id obj; title := d_title cleaned; text := d_text cleaned;
     pub_date := d_pub_date cleaned; is_published := d_is_published cleaned;
     author := author obj; category := d_category cleaned;
     location := d_location cleaned |}.

(** [_post_clean] of a refused [PostForm] bound to a row: before the form
    reports its errors, [construct_instance] has written the accepted values
    into the instance it holds in memory; the key and the author, which are
    no fields of the form, stay. *)
Definition PostForm_post_clean (db : DB) (obj : Post) (data : gmap string pyval) : Post :=
  let a := accepted_Post V db (value_from_datadict PostForm_fields data) in
  {| post_id := post_id obj; title := default (title obj) (a_title a);
     text := default (text obj) (a_text a);
     pub_date := default (pub_date obj) (a_pub_date a);
     is_published := default (is_published obj) (a_is_published a);
     author := author obj; category := default (category obj) (a_category a);
     location := default (location obj) (a_location a) |}.

(** [class CommentForm]: [model = Comment], [fields = ('text',)]. *)
Definition CommentForm_fields : list string := ["text"].

Definition CommentForm_is_valid (data : gmap string pyval) : option string :=
  clean_Comment V (value_from_datadict CommentForm_fields data).

Definition CommentForm_construct_instance (obj : Comment) (cleaned : string) : Comment :=
  {| comment_id := comment_id obj; comment_text := cleaned;
     comment_author := comment_author obj; comments := comments obj;
     created_at := created_at obj |}.

(** [class EditProfileForm]: [model = User],
    [fields = ('username', 'first_name', 'last_name', 'email')]. *)
Definition EditProfileForm_fields : list string :=
  ["username"; "first_name"; "last_name"; "email"].

Definition EditProfileForm_is_valid (db : DB) (obj : User) (data : gmap string pyval)
    : option UserData :=
  clean_User V db obj (value_from_datadict EditProfileForm_fields data).

Definition EditProfileForm_construct_instance (obj : User) (cleaned : UserData) : User :=
  {| user_id := user_id obj; username := d_username cleaned;
     first_name := d_first_name cleaned; last_name := d_last_name cleaned;
     email := d_email cleaned |}.

(** [_post_clean] of a refused [EditProfileForm]: the instance is
    [request.user], overwritten in memory with the accepted values. *)
Definition EditProfileForm_post_clean (db : DB) (obj : User) (data : gmap string pyval)
    : User :=
  let a := accepted_User V db obj (value_from_datadict EditProfileForm_fields data) in
  {| user_id := user_id obj; username := default (username obj) (a_username a);
     first_name := default (first_name obj) (a_first_name a);
     last_name := default (last_name obj) (a_last_name a);
     email := default (email obj) (a_email a) |}.

End Forms.

End Forms.
Import Forms.

(** ** [blog/views.py] *)

Module Views.

(** A view ends with a response and the database it leaves. *)
Definition Outcome : Type := HttpResponse * DB.

(** An exception that leaves the view before anything was written. *)
Definition run (db : DB) (r : result Outcome) : Outcome :=
  match r with
  | Ok o => o
  | Raise e => (response_for_exception e, db)
  end.

(** A response computed after the database became [db]. *)
Definition respond (db : DB) (r : result HttpResponse) : Outcome :=
  match r with
  | Ok resp => (resp, db)
  | Raise e => (response_for_exception e, db)
  end.

(** [SingleObjectMixin.get_object] with [pk_url_kwarg]: the row whose key
    is the keyword argument, [Http404] when there is none, [OverflowError]
    when the key is wider than the keys of the table. *)
Definition get_object {A : Type} (pk : A -> Z) (table : list A)
    (pk_url_kwarg : string) (kwargs : gmap string pyval) : result A :=
  match kwargs !! pk_url_kwarg with
  | Some v =>
      n ← to_int v;
      get_by_key_or_404 pk n table
  | None =>
      match kwargs !! "slug" with
      | Some _ => Raise FieldError
      | None => Raise AttributeError
      end
  end.

(** [Post()] and [Comment()] before the form and the view fill them. *)
Definition blank_post : Post :=
  {| post_id := 0; title := ""; text := ""; pub_date := 0; is_published := true;
     author := 0; category := 0; location := None |}.

Definition blank_comment : Comment :=
  {| comment_id := 0; comment_text := ""; comment_author := 0; comments := 0;
     created_at := 0 |}.

Definition set_post_author (obj : Post) (u : User) : Post :=
  {| post_id := post_id obj; title := title obj; text := text obj;
     pub_date := pub_date obj; is_published := is_published obj;
     author := user_id u; category := category obj; location := location obj |}.

Definition set_comment_post_author (obj : Comment) (post : Post) (u : User) (now : Z)
    : Comment :=
  {| comment_id := comment_id obj; comment_text := comment_text obj;
     comment_author := user_id u; comments := post_id post; created_at := now |}.

Section Views.
Context (V : Validators).
Context (now : Z).

(** *** [class IndexListView(ListView)] *)

Definition IndexListView_get_queryset (db : DB) : list (Post * Z) :=
  order_by_pub_date_desc (annotate db (get_post now db (posts db))).

Definition IndexListView (db : DB) (request : HttpRequest)
    (kwargs : gmap string pyval) : Outcome :=
  match method request with
  | GET =>
      respond db (
        page_obj ← paginate_queryset kwargs request (IndexListView_get_queryset db);
        Ok (TemplateResponse "blog/index.html" (IndexContext page_obj)))
  | POST => (HttpResponseNotAllowed, db)
  end.

(** *** [class PostDetailView(LoginRequiredMixin, DetailView)] *)

Definition PostDetailView_get_object (db : DB) (request : HttpRequest)
    (kwargs : gmap string pyval) : result Post :=
  v ← getitem kwargs "post_id";
  n ← to_int v;
  post ← get_by_key_or_404 post_id n (posts db);
  if is_user (author post) (user request) then Ok post
  else
    get_object_or_404
      (List.filter (fun p => post_id p =? n)
         (List.filter
            (fun p => is_published p
                      && (pub_date p <=? now)
                      && post_category_is_published db p)
            (posts db))).

(** [post.comments]: the comment rows of the post. *)
Definition related_comments (db : DB) (post : Post) : list Comment :=
  List.filter (fun c => comments c =? post_id post) (comment_rows db).

Definition PostDetailView (db : DB) (request : HttpRequest)
    (kwargs : gmap string pyval) : Outcome :=
  LoginRequiredMixin_dispatch request (fun r => (r, db)) (fun _ =>
    match method request with
    | GET =>
        respond db (
          object ← PostDetailView_get_object db request kwargs;
          post ← PostDetailView_get_object db request kwargs;
          Ok (TemplateResponse "blog/detail.html"
                (DetailContext object (related_comments db post))))
    | POST => (HttpResponseNotAllowed, db)
    end).

(** *** [class CategoryPostsView(ListView)] *)

Definition post_category_slug_is (db : DB) (s : string) (p : Post) : bool :=
  match category_of db p with
  | Some c => bool_decide (slug c = s)
  | None => false
  end.

Definition CategoryPostsView_get_queryset (db : DB) (kwargs : gmap string pyval)
    : result (list (Post * Z)) :=
  v ← getitem kwargs "category_slug";
  Ok (order_by_pub_date_desc
        (annotate db
           (List.filter (post_category_slug_is db (str v))
              (get_post now db (posts db))))).

Definition CategoryPostsView (db : DB) (request : HttpRequest)
    (kwargs : gmap string pyval) : Outcome :=
  match method request with
  | GET =>
      respond db (
        queryset ← CategoryPostsView_get_queryset db kwargs;
        page_obj ← paginate_queryset kwargs request queryset;
        v ← getitem kwargs "category_slug";
        category ← get_object_or_404
          (List.filter
             (fun c => category_is_published c && bool_decide (slug c = str v))
             (categories db));
        Ok (TemplateResponse "blog/category.html" (CategoryContext page_obj category)))
  | POST => (HttpResponseNotAllowed, db)
  end.

(** *** [class ProfileEditView(LoginRequiredMixin, UpdateView)] *)

Definition ProfileEditView (db : DB) (request : HttpRequest)
    (kwargs : gmap string pyval) : Outcome :=
  LoginRequiredMixin_dispatch request (fun r => (r, db)) (fun u =>
    match method request with
    | GET =>
        (TemplateResponse "blog/user.html"
           (ProfileFormContext {| instance := Some u; bound := None |}), db)
    | POST =>
        match EditProfileForm_is_valid V db u (data request) with
        | Some cleaned =>
            let u' := EditProfileForm_construct_instance u cleaned in
            respond (update_user db u')
              (url ← reverse profile {[ "username" := PStr (username u') ]};
               Ok (HttpResponseRedirect url))
        | None =>
            (TemplateResponse "blog/user.html"
               (ProfileFormContext
                  {| instance := Some (EditProfileForm_post_clean V db u (data request));
                     bound := Some (data request) |}),
             db)
        end
    end).

(** *** [class ProfileListView(ListView)] *)

Definition ProfileListView_get_queryset (db : DB) (kwargs : gmap string pyval)
    : result (list (Post * Z)) :=
  v ← getitem kwargs "username";
  author_row ← get_object_or_404
    (List.filter (fun u => bool_decide (username u = str v)) (users db));
  Ok (order_by_pub_date_desc
        (annotate db
           (List.filter (fun p => author p =? user_id author_row) (posts db)))).

Definition ProfileListView (db : DB) (request : HttpRequest)
    (kwargs : gmap string pyval) : Outcome :=
  match method request with
  | GET =>
      respond db (
        queryset ← ProfileListView_get_queryset db kwargs;
        page_obj ← paginate_queryset kwargs request queryset;
        v ← getitem kwargs "username";
        profile_row ← get_object_or_404
          (List.filter (fun u => bool_decide (username u = str v)) (users db));
        Ok (TemplateResponse "blog/profile.html" (ProfileContext page_obj profile_row)))
  | POST => (HttpResponseNotAllowed, db)
  end.

(** *** [class PostCreateView(LoginRequiredMixin, CreateView)] *)

(** [form_valid]: the author is the requester, then the row is saved. *)
Definition PostCreateView_form_valid (db : DB) (u : User) (obj : Post) : Outcome :=
  let obj := set_post_author obj u in
  let '(_, db') := insert_post db obj in
  respond db'
    (url ← reverse profile {[ "username" := PStr (username u) ]};
     Ok (HttpResponseRedirect url)).

Definition PostCreateView (db : DB) (request : HttpRequest)
    (kwargs : gmap string pyval) : Outcome :=
  LoginRequiredMixin_dispatch request (fun r => (r, db)) (fun u =>
    match method request with
    | GET =>
        (TemplateResponse "blog/create.html"
           (PostFormContext {| instance := None; bound := None |}), db)
    | POST =>
        match PostForm_is_valid V db (data request) with
        | Some cleaned =>
            PostCreateView_form_valid db u
              (PostForm_construct_instance blank_post cleaned)
        | None =>
            (TemplateResponse "blog/create.html"
               (PostFormContext {| instance := None; bound := Some (data request) |}),
             db)
        end
    end).

(** *** [class PostEditView(LoginRequiredMixin, PostMixin, UpdateView)] *)

(** [PostMixin]: [model = Post], [pk_url_kwarg = 'post_id']. *)
Definition PostMixin_get_object (db : DB) (kwargs : gmap string pyval) : result Post :=
  get_object post_id (posts db) "post_id" kwargs.

Definition PostEditView (db : DB) (request : HttpRequest)
    (kwargs : gmap string pyval) : Outcome :=
  run db (
    obj ← PostMixin_get_object db kwargs;
    if negb (is_user (author obj) (user request)) then
      v ← getitem kwargs "post_id";
      r ← redirect post_detail {[ "post_id" := v ]};
      Ok (r, db)
    else
      Ok (LoginRequiredMixin_dispatch request (fun r => (r, db)) (fun _ =>
        run db (
          object ← PostMixin_get_object db kwargs;
          match method request with
          | GET =>
              Ok (TemplateResponse "blog/create.html"
                    (PostFormContext {| instance := Some object; bound := None |}), db)
          | POST =>
              match PostForm_is_valid V db (data request) with
              | Some cleaned =>
                  let db' := update_post db (PostForm_construct_instance object cleaned) in
                  Ok (respond db'
                        (v ← getitem kwargs "post_id";
                         url ← reverse post_detail {[ "post_id" := v ]};
                         Ok (HttpResponseRedirect url)))
              | None =>
                  Ok (TemplateResponse "blog/create.html"
                        (PostFormContext
                           {| instance := Some (PostForm_post_clean V db object (data request));
                              bound := Some (data request) |}),
                      db)
              end
          end)))).

(** *** [class PostDeleteView(LoginRequiredMixin, PostMixin, DeleteView)] *)

Definition PostDeleteView (db : DB) (request : HttpRequest)
    (kwargs : gmap string pyval) : Outcome :=
  run db (
    obj ← PostMixin_get_object db kwargs;
    if negb (is_user (author obj) (user request)) then
      v ← getitem kwargs "post_id";
      r ← redirect post_detail {[ "post_id" := v ]};
      Ok (r, db)
    else
      Ok (LoginRequiredMixin_dispatch request (fun r => (r, db)) (fun _ =>
        run db (
          object ← PostMixin_get_object db kwargs;
          match method request with
          | GET =>
              Ok (TemplateResponse "blog/create.html" (PostDeleteContext object), db)
          | POST =>
              success_url ← reverse index ∅;
              Ok (HttpResponseRedirect success_url, delete_post_row db object)
          end)))).

(** *** [class CreateCommentView(LoginRequiredMixin, CreateView)] *)

Definition CreateCommentView_form_valid (db : DB) (kwargs : gmap string pyval)
    (post_obj : Post) (u : User) (obj : Comment) : Outcome :=
  let obj := set_comment_post_author obj post_obj u now in
  let '(_, db') := insert_comment db obj in
  respond db'
    (v ← getitem kwargs "post_id";
     url ← reverse post_detail {[ "post_id" := v ]};
     Ok (HttpResponseRedirect url)).

Definition CreateCommentView (db : DB) (request : HttpRequest)
    (kwargs : gmap string pyval) : Outcome :=
  run db (
    v ← getitem kwargs "post_id";
    n ← to_int v;
    post_obj ← get_by_key_or_404 post_id n (posts db);
    Ok (LoginRequiredMixin_dispatch request (fun r => (r, db)) (fun u =>
      match method request with
      | GET =>
          (TemplateResponse "blog/comment.html"
             (CommentFormContext {| instance := None; bound := None |}), db)
      | POST =>
          match CommentForm_is_valid V (data request) with
          | Some cleaned =>
              CreateCommentView_form_valid db kwargs post_obj u
                (CommentForm_construct_instance blank_comment cleaned)
          | None =>
              (TemplateResponse "blog/comment.html"
                 (CommentFormContext {| instance := None; bound := Some (data request) |}),
               db)
          end
      end))).

(** *** [class CommentEditView(UpdateView)] *)

(** [model = Comment], [pk_url_kwarg = 'comment_id']. *)
Definition Comment_get_object (db : DB) (kwargs : gmap string pyval) : result Comment :=
  get_object comment_id (comment_rows db) "comment_id" kwargs.

Definition CommentEditView (db : DB) (request : HttpRequest)
    (kwargs : gmap string pyval) : Outcome :=
  run db (
    obj ← Comment_get_object db kwargs;
    if negb (is_user (comment_author obj) (user request)) then
      v ← getitem kwargs "comment_id";
      r ← redirect post_detail {[ "post_id" := v ]};
      Ok (r, db)
    else
      object ← Comment_get_object db kwargs;
      match method request with
      | GET =>
          Ok (TemplateResponse "blog/comment.html"
                (CommentFormContext {| instance := Some object; bound := None |}), db)
      | POST =>
          match CommentForm_is_valid V (data request) with
          | Some cleaned =>
              let db' := update_comment db (CommentForm_construct_instance object cleaned) in
              Ok (respond db'
                    (v ← getitem kwargs "comment_id";
                     url ← reverse post_detail {[ "post_id" := v ]};
                     Ok (HttpResponseRedirect url)))
          | None =>
              Ok (TemplateResponse "blog/comment.html"
                    (CommentFormContext
                       {| instance := Some object; bound := Some (data request) |}),
                  db)
          end
      end).

(** *** [class CommentDeleteView(DeleteView)] *)

Definition CommentDeleteView (db : DB) (request : HttpRequest)
    (kwargs : gmap string pyval) : Outcome :=
  run db (
    obj ← Comment_get_object db kwargs;
    if negb (is_user (comment_author obj) (user request)) then
      v ← getitem kwargs "comment_id";
      r ← redirect post_detail {[ "post_id" := v ]};
      Ok (r, db)
    else
      object ← Comment_get_object db kwargs;
      match method request with
      | GET =>
          Ok (TemplateResponse "blog/comment.html" (CommentDeleteContext object), db)
      | POST =>
          v ← getitem kwargs "comment_id";
          success_url ← reverse post_detail {[ "post_id" := v ]};
          Ok (HttpResponseRedirect success_url, delete_comment_row db object)
      end).

(** *** The views behind [urlpatterns] *)

Definition as_view (name : UrlName)
    : DB -> HttpRequest -> gmap string pyval -> Outcome :=
  match name with
  | index => IndexListView
  | post_detail => PostDetailView
  | category_posts => CategoryPostsView
  | edit_profile => ProfileEditView
  | profile => ProfileListView
  | create_post => PostCreateView
  | edit_post => PostEditView
  | delete_post => PostDeleteView
  | add_comment => CreateCommentView
  | edit_comment => CommentEditView
  | delete_comment => CommentDeleteView
  end.

End Views.

End Views.
Import Views.

(** ** The visibility predicate of the specification *)

(** The base predicate as the specification words it: the post is
    published, its date is not after the current time, and its category is
    published. *)
Definition publicly_visible (now : Z) (db : DB) (p : Post) : bool :=
  is_published p && (pub_date p <=? now) && post_category_is_published db p.

(** The comment count as the specification words it: the count of the
    comment rows associated with the post of key [post]. *)
Fixpoint associated_comments (post : Z) (rows : list Comment) : Z :=
  match rows with
  | [] => 0
  | c :: rows' =>
      (if comments c =? post then 1 else 0) + associated_comments post rows'
  end.

(** ** A small site *)

Module Fixture.

Definition alice : User :=
  {| user_id := 1; username := "alice"; first_name := "Alice"; last_name := "A";
     email := "alice@example.org" |}.

Definition bob : User :=
  {| user_id := 2; username := "bob"; first_name := "Bob"; last_name := "B";
     email := "bob@example.org" |}.

Definition travel : Category :=
  {| category_id := 1; slug := "travel"; category_title := "Travel";
     category_is_published := true |}.

(** Day 100 of the clock, at 08:00 and at 12:00. *)
Definition morning : Z := 100 * SECONDS_PER_DAY + 8 * 3600.
Definition noon : Z := 100 * SECONDS_PER_DAY + 12 * 3600.

(** Published by alice this morning. *)
Definition today_post : Post :=
  {| post_id := 1; title := "Today"; text := "Fresh"; pub_date := morning;
     is_published := true; author := 1; category := 1; location := None |}.

(** A draft of alice. *)
Definition draft_post : Post :=
  {| post_id := 2; title := "Draft"; text := "Not yet"; pub_date := 0;
     is_published := false; author := 1; category := 1; location := None |}.

(** A comment of bob on alice's post of today. *)
Definition bob_comment : Comment :=
  {| comment_id := 7; comment_text := "Nice"; comment_author := 2; comments := 1;
     created_at := morning + 60 |}.

Definition site : DB :=
  {| users := [alice; bob]; categories := [travel]; locations := [];
     posts := [today_post; draft_post]; comment_rows := [bob_comment];
     post_seq := 2; comment_seq := 7 |}.

(** Validators that want every required field to be there. *)
Definition required_text (d : gmap string pyval) (k : string) : option string :=
  match d !! k with
  | Some (PStr s) => if bool_decide (s = "") then None else Some s
  | _ => None
  end.

Definition optional_text (d : gmap string pyval) (k : string) : string :=
  match d !! k with
  | Some (PStr s) => s
  | _ => ""
  end.

Definition validators : Validators :=
  {| clean_Post := fun db d =>
       t ← required_text d "title";
       x ← required_text d "text";
       match d !! "pub_date", d !! "category" with
       | Some (PInt when), Some (PInt c) =>
           if existsb (fun r => category_id r =? c) (categories db) then
             Some {| d_title := t; d_text := x; d_pub_date := when;
                     d_is_published := bool_decide (d !! "is_published" = Some (PBool true));
                     d_category := c; d_location := None |}
           else None
       | _, _ => None
       end;
     clean_Comment := fun d => required_text d "text";
     clean_User := fun db u d =>
       n ← required_text d "username";
       Some {| d_username := n; d_first_name := optional_text d "first_name";
               d_last_name := optional_text d "last_name";
               d_email := optional_text d "email" |};
     accepted_Post := fun db d =>
       {| a_title := required_text d "title"; a_text := required_text d "text";
          a_pub_date := match d !! "pub_date" with Some (PInt t) => Some t | _ => None end;
          a_is_published := Some (bool_decide (d !! "is_published" = Some (PBool true)));
          a_category :=
            match d !! "category" with
            | Some (PInt c) =>
                if existsb (fun r => category_id r =? c) (categories db) then Some c
                else None
            | _ => None
            end;
          a_location := Some None |};
     accepted_User := fun db u d =>
       {| a_username := required_text d "username";
          a_first_name := Some (optional_text d "first_name");
          a_last_name := Some (optional_text d "last_name");
          a_email := Some (optional_text d "email") |} |}.

Definition request (m : Method) (u : option User) (p : string)
    (d : gmap string pyval) : HttpRequest :=
  {| method := m; user := u; path := p; query := ∅; data := d |}.

(** bob creates a post, once with an honest payload and once with a payload
    that names alice as the author. *)
Definition create_payload : gmap string pyval :=
  {[ "title" := PStr "Hello"; "text" := PStr "World"; "pub_date" := PInt 5;
     "category" := PInt 1 ]}.

Definition honest_create : HttpRequest :=
  request POST (Some bob) "/posts/create/" create_payload.

Definition forged_create : HttpRequest :=
  request POST (Some bob) "/posts/create/" (<[ "author" := PInt 1 ]> create_payload).

(** alice comments on her post of today. *)
Definition add_comment_request : HttpRequest :=
  request POST (Some alice) "/posts/1/comment/" {[ "text" := PStr "Thanks" ]}.

(** bob, alice and nobody ask to change the comment of bob. *)
Definition edit_comment_request (u : option User) : HttpRequest :=
  request POST u "/posts/1/7/eit_comment/" {[ "text" := PStr "Very nice" ]}.

Definition comment_kwargs : gmap string pyval :=
  {[ "post_id" := PInt 1; "comment_id" := PInt 7 ]}.

(** The same site with an older post of bob, on which alice commented
    twice. *)
Definition old_post : Post :=
  {| post_id := 3; title := "Old"; text := "Long ago"; pub_date := 50 * SECONDS_PER_DAY;
     is_published := true; author := 2; category := 1; location := None |}.

Definition alice_comment (pk : Z) : Comment :=
  {| comment_id := pk; comment_text := "Still true"; comment_author := 1; comments := 3;
     created_at := morning |}.

Definition busy_site : DB :=
  {| users := [alice; bob]; categories := [travel]; locations := [];
     posts := [today_post; draft_post; old_post];
     comment_rows := [bob_comment; alice_comment 8; alice_comment 9];
     post_seq := 3; comment_seq := 9 |}.

(** Day 101 at 12:00: the post of day 100 is dated before today. *)
Definition next_noon : Z := 101 * SECONDS_PER_DAY + 12 * 3600.

End Fixture.

(** ** Invariants of the tables and the writes of a request *)

(** Primary keys are not repeated and do not run ahead of the sequence that
    hands out the next one. *)
Record keys_ok (db : DB) : Prop := {
  post_keys : NoDup (List.map post_id (posts db));
  comment_keys : NoDup (List.map comment_id (comment_rows db));
  post_keys_issued : Forall (fun p => post_id p <= post_seq db) (posts db);
  comment_keys_issued : Forall (fun c => comment_id c <= comment_seq db) (comment_rows db) }.

(** The writes a requester [u] can cause in the comment table: none, a new
    comment of [u] on a post of the site, a new version or the removal of a
    comment of [u]. *)
Inductive comment_write (u : option User) (db : DB) : DB -> Prop :=
| write_no_comment :
    comment_write u db db
| write_new_comment (obj : Comment) (p : Post) :
    In p (posts db) -> comments obj = post_id p ->
    is_user (comment_author obj) u = true ->
    comment_write u db (insert_comment db obj).2
| write_comment (old new : Comment) :
    In old (comment_rows db) -> is_user (comment_author old) u = true ->
    comment_id new = comment_id old -> comment_author new = comment_author old ->
    comments new = comments old -> created_at new = created_at old ->
    comment_write u db (update_comment db new)
| write_comment_removed (old : Comment) :
    In old (comment_rows db) -> is_user (comment_author old) u = true ->
    comment_write u db (delete_comment_row db old).

(** The writes a requester [u] can cause at all: those, a new post of [u],
    a new version or the removal of a post of [u], a new version of the
    row of [u]. *)
Inductive authorized_write (u : option User) (db : DB) : DB -> Prop :=
| write_comments (db' : DB) :
    comment_write u db db' ->
    authorized_write u db db'
| write_new_post (obj : Post) :
    is_user (author obj) u = true ->
    authorized_write u db (insert_post db obj).2
| write_post (old new : Post) :
    In old (posts db) -> is_user (author old) u = true ->
    post_id new = post_id old -> author new = author old ->
    authorized_write u db (update_post db new)
| write_post_removed (old : Post) :
    In old (posts db) -> is_user (author old) u = true ->
    authorized_write u db (delete_post_row db old)
| write_user (old new : User) :
    u = Some old -> user_id new = user_id old ->
    authorized_write u db (update_user db new).

(** Newest first. *)
Definition newest_first (l : list (Post * Z)) : Prop :=
  StronglySorted (fun x y => pub_date y.1 <= pub_date x.1) l.

(** * Properties *)

(** Closed decidable facts about the fixture are settled by evaluation. *)
Ltac decide_closed := apply (bool_decide_unpack _); vm_compute; exact I.

(** Case analysis on a scrutinee that holds no other case analysis. *)
Ltac innermost_case :=
  match goal with
  | |- context [match ?x with _ => _ end] =>
      lazymatch x with
      | context [match _ with _ => _ end] => fail
      | _ => destruct x
      end
  end.

(** ** The model on small inputs *)

Example page_3_of_25 :
  paginate_queryset ∅
    (with_query (Fixture.request GET None "/" ∅) {[ "page" := PInt 3 ]})
    (seq 1 25)
  = Ok [21; 22; 23; 24; 25]%nat.
Proof. reflexivity. Qed.

Example page_4_of_25 :
  paginate_queryset ∅
    (with_query (Fixture.request GET None "/" ∅) {[ "page" := PInt 4 ]})
    (seq 1 25)
  = Raise Http404.
Proof. reflexivity. Qed.

Example last_page_of_25 :
  paginate_queryset ∅
    (with_query (Fixture.request GET None "/" ∅) {[ "page" := PStr "last" ]})
    (seq 1 25)
  = Ok [21; 22; 23; 24; 25]%nat.
Proof. reflexivity. Qed.

Example first_page_of_nothing :
  paginate_queryset ∅ (Fixture.request GET None "/" ∅) (@nil nat) = Ok [].
Proof. reflexivity. Qed.

Example profile_of_alice_newest_first :
  ProfileListView_get_queryset Fixture.site {[ "username" := PStr "alice" ]}
  = Ok [(Fixture.today_post, 1); (Fixture.draft_post, 0)].
Proof. vm_compute. reflexivity. Qed.

Example reverse_profile_refuses_dot :
  reverse profile {[ "username" := PStr "a.b" ]} = Raise NoReverseMatch.
Proof. vm_compute. reflexivity. Qed.

Example reverse_delete_comment :
  reverse delete_comment {[ "post_id" := PInt 1; "comment_id" := PInt 7 ]}
  = Ok "/posts/1/delete_comment/7/".
Proof. vm_compute. reflexivity. Qed.

(** ** Lookups by key *)

Section Keys.
Context {A : Type} (pk : A -> Z).

Lemma filter_none (f : A -> bool) (l : list A) :
  (forall x, In x l -> f x = false) -> List.filter f l = [].
Proof.
  induction l as [|x l IH]; intros H; [done|].
  cbn. rewrite (H x (or_introl eq_refl)). apply IH. intros y Hy. apply H. by right.
Qed.

(** In a table without repeated keys, the lookup by the key of a row finds
    that row and no other. *)
Lemma filter_pk_unique (table : list A) (row : A) :
  NoDup (List.map pk table) -> In row table ->
  List.filter (fun r => pk r =? pk row) table = [row].
Proof.
  induction table as [|r table IH]; intros Hnd Hin; [destruct Hin|].
  apply NoDup_cons in Hnd as [Hr Hnd]. cbn [List.filter].
  destruct Hin as [->|Hin].
  - rewrite Z.eqb_refl. f_equal.
    apply filter_none. intros r' Hr'. apply Z.eqb_neq. intros Heq.
    apply Hr. rewrite <- Heq. apply list_elem_of_In, in_map, Hr'.
  - destruct (Z.eqb_spec (pk r) (pk row)) as [Heq|_]; [|by apply IH].
    exfalso. apply Hr. rewrite Heq. apply list_elem_of_In, in_map, Hin.
Qed.

Lemma get_object_or_404_pk (table : list A) (row : A) :
  NoDup (List.map pk table) -> In row table ->
  get_object_or_404 (List.filter (fun r => pk r =? pk row) table) = Ok row.
Proof. intros Hnd Hin. by rewrite filter_pk_unique. Qed.

(** The lookup by a key that a row of the table carries finds the row,
    whatever the width of the key. *)
Lemma get_by_key_or_404_pk (table : list A) (row : A) :
  NoDup (List.map pk table) -> In row table ->
  get_by_key_or_404 pk (pk row) table = Ok row.
Proof.
  intros Hnd Hin. unfold get_by_key_or_404. by rewrite filter_pk_unique.
Qed.

Lemma get_by_key_or_404_In (n : Z) (table : list A) (row : A) :
  get_by_key_or_404 pk n table = Ok row -> In row table /\ pk row = n.
Proof.
  unfold get_by_key_or_404. intros H.
  assert (Hin : In row (List.filter (fun r => pk r =? n) table)).
  { destruct (List.filter (fun r => pk r =? n) table) as [|r [|r' l]].
    - by destruct (fits_int64 n).
    - injection H as ->. by left.
    - discriminate. }
  apply filter_In in Hin as [Hin Heq]. by apply Z.eqb_eq in Heq.
Qed.

(** The lookup by a key that no row carries: [Http404] for a key the table
    could hold, [OverflowError] for a wider one. *)
Lemma get_by_key_or_404_missing (n : Z) (table : list A) :
  (forall row, In row table -> pk row <> n) ->
  get_by_key_or_404 pk n table
  = if fits_int64 n then Raise Http404 else Raise OverflowError.
Proof.
  intros Hnone. unfold get_by_key_or_404. rewrite filter_none; [done|].
  intros row Hrow. apply Z.eqb_neq. by apply Hnone.
Qed.

Lemma get_object_pk (table : list A) (row : A) (name : string)
    (kwargs : gmap string pyval) :
  NoDup (List.map pk table) -> In row table ->
  kwargs !! name = Some (PInt (pk row)) ->
  get_object pk table name kwargs = Ok row.
Proof.
  intros Hnd Hin Hkw. unfold get_object. rewrite Hkw. cbn.
  by apply get_by_key_or_404_pk.
Qed.

(** A lookup keeps only rows of the table. *)
Lemma get_object_or_404_In (f : A -> bool) (table : list A) (row : A) :
  get_object_or_404 (List.filter f table) = Ok row -> In row table /\ f row = true.
Proof.
  intros H. apply filter_In. unfold get_object_or_404 in H.
  destruct (List.filter f table) as [|r [|r' l]]; try discriminate.
  injection H as ->. by left.
Qed.

(** Two rows of such a table with one key are one row. *)
Lemma pk_inj (table : list A) (x y : A) :
  NoDup (List.map pk table) -> In x table -> In y table -> pk y = pk x -> y = x.
Proof.
  intros Hnd Hx Hy Heq.
  assert (H : In y (List.filter (fun r => pk r =? pk x) table)).
  { apply filter_In. split; [done|]. by apply Z.eqb_eq. }
  rewrite filter_pk_unique in H by done. destruct H as [H|[]]. done.
Qed.

End Keys.

(** ** Reversing the detail route *)

Lemma reverse_post_detail (n : Z) :
  0 <= n -> reverse post_detail {[ "post_id" := PInt n ]} = Ok (post_detail_url n).
Proof.
  intros Hn. unfold reverse. rewrite map_size_singleton. cbn.
  rewrite lookup_singleton_eq. cbn.
  destruct (Z.leb_spec 0 n) as [_|?]; [|lia]. reflexivity.
Qed.

Lemma redirect_post_detail (n : Z) :
  0 <= n ->
  redirect post_detail {[ "post_id" := PInt n ]} = Ok (HttpResponseRedirect (post_detail_url n)).
Proof. intros Hn. unfold redirect. by rewrite reverse_post_detail. Qed.

(** ** The detail page *)

(** C3: the author of a post who asks for its detail page gets the post,
    whatever its publication flag, its date and the flag of its category. *)
Theorem C3_author_gets_own_post (now : Z) (db : DB) (request : HttpRequest)
    (kwargs : gmap string pyval) (p : Post) (u : User) :
  NoDup (List.map post_id (posts db)) ->
  In p (posts db) ->
  author p = user_id u ->
  user request = Some u ->
  method request = GET ->
  kwargs !! "post_id" = Some (PInt (post_id p)) ->
  PostDetailView now db request kwargs
  = (TemplateResponse "blog/detail.html" (DetailContext p (related_comments db p)), db).
Proof.
  intros Hnd Hin Hauthor Huser Hget Hkw.
  assert (Hobj : PostDetailView_get_object now db request kwargs = Ok p).
  { unfold PostDetailView_get_object, getitem. rewrite Hkw. cbn.
    rewrite (get_by_key_or_404_pk post_id (posts db) p Hnd Hin). cbn.
    rewrite Huser. cbn. rewrite Hauthor, Z.eqb_refl. reflexivity. }
  unfold PostDetailView, LoginRequiredMixin_dispatch.
  rewrite Huser, Hget, Hobj. reflexivity.
Qed.

Lemma C3_author_gets_own_post_witness :
  PostDetailView Fixture.noon Fixture.site
    (Fixture.request GET (Some Fixture.alice) "/posts/2/" ∅)
    {[ "post_id" := PInt 2 ]}
  = (TemplateResponse "blog/detail.html" (DetailContext Fixture.draft_post []),
     Fixture.site).
Proof.
  apply (C3_author_gets_own_post Fixture.noon Fixture.site _ _
           Fixture.draft_post Fixture.alice).
  - decide_closed.
  - right; left; reflexivity.
  - reflexivity.
  - reflexivity.
  - reflexivity.
  - reflexivity.
Defined.

(** For a requester who is not the author, a post that fails the
    visibility predicate is not among the rows the detail view looks in. *)
Lemma hidden_post_not_found (now : Z) (db : DB) (p : Post) :
  NoDup (List.map post_id (posts db)) ->
  In p (posts db) ->
  publicly_visible now db p = false ->
  get_object_or_404
    (List.filter (fun q => post_id q =? post_id p)
       (List.filter
          (fun q => is_published q && (pub_date q <=? now)
                    && post_category_is_published db q)
          (posts db)))
  = Raise Http404.
Proof.
  intros Hnd Hin Hvis. rewrite filter_none; [done|].
  intros q Hq. apply filter_In in Hq as [Hq Hq'].
  apply Z.eqb_neq. intros Heq.
  apply (pk_inj post_id (posts db) p q Hnd Hin Hq) in Heq. subst q.
  unfold publicly_visible in Hvis. congruence.
Qed.

(** C2, as amended: a logged-in requester who is not the author of a post
    that fails the visibility predicate gets NotFound from its detail
    route; an anonymous requester is sent to the login page. *)
Theorem C2_hidden_post_detail (now : Z) (db : DB) (request : HttpRequest)
    (kwargs : gmap string pyval) (p : Post) :
  NoDup (List.map post_id (posts db)) ->
  In p (posts db) ->
  publicly_visible now db p = false ->
  method request = GET ->
  kwargs !! "post_id" = Some (PInt (post_id p)) ->
  (forall u, user request = Some u -> author p <> user_id u ->
     PostDetailView now db request kwargs = (HttpResponseNotFound, db))
  /\ (user request = None ->
      PostDetailView now db request kwargs = (RedirectToLogin (path request), db)).
Proof.
  intros Hnd Hin Hvis Hget Hkw. split.
  - intros u Huser Hother.
    assert (Hobj : PostDetailView_get_object now db request kwargs = Raise Http404).
    { unfold PostDetailView_get_object, getitem. rewrite Hkw. cbn.
      rewrite (get_by_key_or_404_pk post_id (posts db) p Hnd Hin). cbn.
      rewrite Huser. cbn.
      destruct (Z.eqb_spec (author p) (user_id u)) as [?|_]; [done|].
      by apply hidden_post_not_found. }
    unfold PostDetailView, LoginRequiredMixin_dispatch.
    rewrite Huser, Hget, Hobj. reflexivity.
  - intros Huser. unfold PostDetailView, LoginRequiredMixin_dispatch.
    by rewrite Huser.
Qed.

Lemma C2_hidden_post_detail_witness :
  PostDetailView Fixture.noon Fixture.site
    (Fixture.request GET (Some Fixture.bob) "/posts/2/" ∅)
    {[ "post_id" := PInt 2 ]}
  = (HttpResponseNotFound, Fixture.site).
Proof.
  destruct (C2_hidden_post_detail Fixture.noon Fixture.site
              (Fixture.request GET (Some Fixture.bob) "/posts/2/" ∅)
              {[ "post_id" := PInt 2 ]} Fixture.draft_post) as [Hbob _].
  - decide_closed.
  - right; left; reflexivity.
  - reflexivity.
  - reflexivity.
  - reflexivity.
  - apply (Hbob Fixture.bob); [reflexivity | discriminate].
Defined.

(** C2 as stated fails for the anonymous requester: the detail view is
    behind [LoginRequiredMixin], so the draft of alice answers an anonymous
    request with the redirect to the login page, not with NotFound. *)
Lemma C2_anonymous_is_sent_to_login :
  In Fixture.draft_post (posts Fixture.site)
  /\ is_published Fixture.draft_post = false
  /\ publicly_visible Fixture.noon Fixture.site Fixture.draft_post = false
  /\ user (Fixture.request GET None "/posts/2/" ∅) = None
  /\ PostDetailView Fixture.noon Fixture.site
       (Fixture.request GET None "/posts/2/" ∅) {[ "post_id" := PInt 2 ]}
     = (RedirectToLogin "/posts/2/", Fixture.site)
  /\ fst (PostDetailView Fixture.noon Fixture.site
            (Fixture.request GET None "/posts/2/" ∅) {[ "post_id" := PInt 2 ]})
     <> HttpResponseNotFound.
Proof.
  repeat split; try reflexivity.
  - right; left; reflexivity.
  - discriminate.
Qed.

(** ** The ownership guard of posts *)

(** C4: a logged-in user who asks to edit or to delete a post of another
    author is redirected to the detail page of that post, and the database
    stays as it was. *)
Theorem C4_non_author_edit_delete_redirects (V : Validators) (db : DB)
    (request : HttpRequest) (kwargs : gmap string pyval) (p : Post) (a : User) :
  NoDup (List.map post_id (posts db)) ->
  In p (posts db) ->
  0 <= post_id p ->
  user request = Some a ->
  author p <> user_id a ->
  kwargs !! "post_id" = Some (PInt (post_id p)) ->
  PostEditView V db request kwargs
  = (HttpResponseRedirect (post_detail_url (post_id p)), db)
  /\ PostDeleteView db request kwargs
     = (HttpResponseRedirect (post_detail_url (post_id p)), db).
Proof.
  intros Hnd Hin Hpos Huser Hother Hkw.
  assert (Hobj : PostMixin_get_object db kwargs = Ok p)
    by (by apply get_object_pk).
  assert (Hno : is_user (author p) (user request) = false).
  { rewrite Huser. cbn. by apply Z.eqb_neq. }
  unfold PostEditView, PostDeleteView.
  rewrite Hobj. cbn. rewrite Hno. cbn.
  unfold getitem. rewrite Hkw. cbn.
  rewrite redirect_post_detail by done. done.
Qed.

Lemma C4_non_author_edit_delete_redirects_witness :
  PostEditView Fixture.validators Fixture.site
    (Fixture.request POST (Some Fixture.bob) "/posts/1/edit/" {[ "title" := PStr "Mine" ]})
    {[ "post_id" := PInt 1 ]}
  = (HttpResponseRedirect (post_detail_url 1), Fixture.site).
Proof.
  apply (C4_non_author_edit_delete_redirects Fixture.validators Fixture.site _ _
           Fixture.today_post Fixture.bob).
  - decide_closed.
  - left; reflexivity.
  - cbn; lia.
  - reflexivity.
  - discriminate.
  - reflexivity.
Defined.

(** ** Forms read their own fields *)

Lemma value_from_datadict_agree (fields : list string) (d d' : gmap string pyval) :
  (forall k, k ∈ fields -> d !! k = d' !! k) ->
  value_from_datadict fields d = value_from_datadict fields d'.
Proof.
  intros Hagree. unfold value_from_datadict. apply map_eq. intros k.
  rewrite !map_lookup_filter.
  destruct (decide (k ∈ fields)) as [Hk|Hk].
  - by rewrite Hagree.
  - destruct (d !! k), (d' !! k); cbn; try done;
      repeat case_guard; cbn in *; done.
Qed.

(** Payloads that differ in [author] only are one payload for [PostForm]. *)
Lemma PostForm_ignores_author (V : Validators) (db : DB) (d d' : gmap string pyval) :
  (forall k, k <> "author" -> d !! k = d' !! k) ->
  PostForm_is_valid V db d = PostForm_is_valid V db d'.
Proof.
  intros Hagree. unfold PostForm_is_valid. f_equal.
  assert (Hno : "author" ∉ PostForm_fields) by decide_closed.
  apply value_from_datadict_agree. intros k Hk. apply Hagree. by intros ->.
Qed.

(** ** Creating posts and comments *)

(** C5: a post created by a logged-in requester has that requester as its
    author whatever the payload, and payloads that differ only in an
    [author] value leave the same database. *)
Theorem C5_created_post_author_is_requester (V : Validators) (db : DB)
    (request request' : HttpRequest) (kwargs kwargs' : gmap string pyval) (u : User) :
  user request = Some u ->
  method request = POST ->
  user request' = Some u ->
  method request' = POST ->
  (forall k, k <> "author" -> data request !! k = data request' !! k) ->
  (forall cleaned, PostForm_is_valid V db (data request) = Some cleaned ->
     exists row,
       posts (snd (PostCreateView V db request kwargs)) = posts db ++ [row]
       /\ author row = user_id u
       /\ title row = d_title cleaned /\ text row = d_text cleaned)
  /\ (PostForm_is_valid V db (data request) = None ->
      snd (PostCreateView V db request kwargs) = db)
  /\ snd (PostCreateView V db request kwargs)
     = snd (PostCreateView V db request' kwargs').
Proof.
  intros Hu Hm Hu' Hm' Hagree.
  unfold PostCreateView, LoginRequiredMixin_dispatch.
  rewrite Hu, Hm, Hu', Hm'.
  rewrite <- (PostForm_ignores_author V db _ _ Hagree).
  destruct (PostForm_is_valid V db (data request)) as [cleaned|]; cbn.
  - split; [|split; [done|]].
    + intros ? [= <-]. eexists. unfold PostCreateView_form_valid. cbn.
      destruct (reverse profile _); cbn; repeat split; reflexivity.
    + unfold PostCreateView_form_valid. cbn.
      destruct (reverse profile _); reflexivity.
  - repeat split; done.
Qed.

Lemma C5_created_post_author_is_requester_witness :
  List.map author
    (posts (snd (PostCreateView Fixture.validators Fixture.site Fixture.forged_create ∅)))
  = [1; 1; 2]
  /\ snd (PostCreateView Fixture.validators Fixture.site Fixture.forged_create ∅)
     = snd (PostCreateView Fixture.validators Fixture.site Fixture.honest_create ∅).
Proof.
  destruct (C5_created_post_author_is_requester Fixture.validators Fixture.site
              Fixture.forged_create Fixture.honest_create ∅ ∅ Fixture.bob)
    as (Hvalid & _ & Hsame).
  - reflexivity.
  - reflexivity.
  - reflexivity.
  - reflexivity.
  - intros k Hk. cbn. by rewrite lookup_insert_ne.
  - split; [|exact Hsame]. vm_compute. reflexivity.
Defined.

(** C7: a logged-in user who posts a valid comment text to the comment
    route of an existing post adds exactly one comment row, whose author is
    that user and whose post is that post, and is redirected to the detail
    page of the post. *)
Theorem C7_comment_created_for_requester_and_post (V : Validators) (now : Z) (db : DB)
    (request : HttpRequest) (kwargs : gmap string pyval) (p : Post) (u : User)
    (cleaned : string) :
  NoDup (List.map post_id (posts db)) ->
  In p (posts db) ->
  0 <= post_id p ->
  kwargs !! "post_id" = Some (PInt (post_id p)) ->
  user request = Some u ->
  method request = POST ->
  CommentForm_is_valid V (data request) = Some cleaned ->
  exists row db',
    CreateCommentView V now db request kwargs
    = (HttpResponseRedirect (post_detail_url (post_id p)), db')
    /\ comment_rows db' = comment_rows db ++ [row]
    /\ comment_author row = user_id u
    /\ comments row = post_id p
    /\ comment_text row = cleaned
    /\ posts db' = posts db
    /\ users db' = users db.
Proof.
  intros Hnd Hin Hpos Hkw Hu Hm Hvalid.
  unfold CreateCommentView, getitem. rewrite Hkw. cbn.
  rewrite (get_by_key_or_404_pk post_id (posts db) p Hnd Hin). cbn.
  unfold LoginRequiredMixin_dispatch. rewrite Hu, Hm, Hvalid.
  unfold CreateCommentView_form_valid, getitem. cbn. rewrite Hkw. cbn.
  rewrite reverse_post_detail by done. cbn.
  eexists _, _. repeat split; reflexivity.
Qed.

Lemma C7_comment_created_for_requester_and_post_witness :
  exists row db',
    CreateCommentView Fixture.validators Fixture.noon Fixture.site
      Fixture.add_comment_request {[ "post_id" := PInt 1 ]}
    = (HttpResponseRedirect (post_detail_url 1), db')
    /\ comment_rows db' = [Fixture.bob_comment] ++ [row]
    /\ comment_author row = 1
    /\ comments row = 1
    /\ comment_text row = "Thanks"
    /\ posts db' = posts Fixture.site
    /\ users db' = users Fixture.site.
Proof.
  apply (C7_comment_created_for_requester_and_post Fixture.validators Fixture.noon
           Fixture.site Fixture.add_comment_request {[ "post_id" := PInt 1 ]}
           Fixture.today_post Fixture.alice "Thanks").
  - decide_closed.
  - left; reflexivity.
  - cbn; lia.
  - reflexivity.
  - reflexivity.
  - reflexivity.
  - reflexivity.
Defined.

(** ** Editing and deleting comments *)

(** C8: for a request to edit or to delete a comment, the redirect after a
    failed ownership check and the redirect after success both go to the
    post-detail path built from the [comment_id] of the route. *)
Theorem C8_comment_redirects_use_comment_id (V : Validators) (db : DB)
    (request : HttpRequest) (kwargs : gmap string pyval) (c : Comment) :
  NoDup (List.map comment_id (comment_rows db)) ->
  In c (comment_rows db) ->
  0 <= comment_id c ->
  kwargs !! "comment_id" = Some (PInt (comment_id c)) ->
  (is_user (comment_author c) (user request) = false ->
     fst (CommentEditView V db request kwargs)
     = HttpResponseRedirect (post_detail_url (comment_id c))
     /\ fst (CommentDeleteView db request kwargs)
        = HttpResponseRedirect (post_detail_url (comment_id c)))
  /\ (is_user (comment_author c) (user request) = true ->
      method request = POST ->
      (is_Some (CommentForm_is_valid V (data request)) ->
         fst (CommentEditView V db request kwargs)
         = HttpResponseRedirect (post_detail_url (comment_id c)))
      /\ fst (CommentDeleteView db request kwargs)
         = HttpResponseRedirect (post_detail_url (comment_id c))).
Proof.
  intros Hnd Hin Hpos Hkw.
  assert (Hobj : Comment_get_object db kwargs = Ok c) by (by apply get_object_pk).
  unfold CommentEditView, CommentDeleteView. rewrite Hobj. cbn.
  unfold getitem. rewrite Hkw. cbn.
  split.
  - intros ->. cbn. rewrite redirect_post_detail by done. done.
  - intros -> ->. cbn. rewrite reverse_post_detail by done. cbn.
    split; [|done]. intros [cleaned ->]. reflexivity.
Qed.

Lemma C8_comment_redirects_use_comment_id_witness :
  fst (CommentEditView Fixture.validators Fixture.site
         (Fixture.edit_comment_request (Some Fixture.alice)) Fixture.comment_kwargs)
  = HttpResponseRedirect "/posts/7/"
  /\ fst (CommentEditView Fixture.validators Fixture.site
            (Fixture.edit_comment_request (Some Fixture.bob)) Fixture.comment_kwargs)
     = HttpResponseRedirect "/posts/7/"
  /\ comments Fixture.bob_comment = 1.
Proof.
  destruct (C8_comment_redirects_use_comment_id Fixture.validators Fixture.site
              (Fixture.edit_comment_request (Some Fixture.alice))
              Fixture.comment_kwargs Fixture.bob_comment) as [Hfail _];
    [decide_closed | left; reflexivity | cbn; lia | reflexivity |].
  destruct (C8_comment_redirects_use_comment_id Fixture.validators Fixture.site
              (Fixture.edit_comment_request (Some Fixture.bob))
              Fixture.comment_kwargs Fixture.bob_comment) as [_ Hok];
    [decide_closed | left; reflexivity | cbn; lia | reflexivity |].
  split; [exact (proj1 (Hfail eq_refl))|].
  split; [|reflexivity].
  apply (proj1 (Hok eq_refl eq_refl)). by eexists.
Defined.

(** C10: the outcome of a request to edit or to delete a comment does not
    depend on the [post_id] of the route: two requests with one method, one
    user and one payload, whose keyword arguments agree on every key but
    [post_id], end with the same response and the same database. *)
Theorem C10_comment_views_ignore_post_id (V : Validators) (db : DB)
    (request request' : HttpRequest) (kwargs kwargs' : gmap string pyval) :
  method request = method request' ->
  user request = user request' ->
  data request = data request' ->
  (forall k, k <> "post_id" -> kwargs !! k = kwargs' !! k) ->
  CommentEditView V db request kwargs = CommentEditView V db request' kwargs'
  /\ CommentDeleteView db request kwargs = CommentDeleteView db request' kwargs'.
Proof.
  intros Hm Hu Hd Hagree.
  assert (Hobj : Comment_get_object db kwargs = Comment_get_object db kwargs').
  { unfold Comment_get_object, get_object.
    by rewrite (Hagree "comment_id"), (Hagree "slug"). }
  assert (Hitem : getitem kwargs "comment_id" = getitem kwargs' "comment_id").
  { unfold getitem. by rewrite (Hagree "comment_id"). }
  unfold CommentEditView, CommentDeleteView.
  rewrite Hobj, Hitem, Hm, Hu, Hd. done.
Qed.

Lemma C10_comment_views_ignore_post_id_witness :
  CommentEditView Fixture.validators Fixture.site
    (Fixture.edit_comment_request (Some Fixture.bob)) Fixture.comment_kwargs
  = CommentEditView Fixture.validators Fixture.site
      (Fixture.edit_comment_request (Some Fixture.bob))
      (<[ "post_id" := PInt 2 ]> Fixture.comment_kwargs)
  /\ CommentDeleteView Fixture.site
       (Fixture.edit_comment_request (Some Fixture.bob)) Fixture.comment_kwargs
     = CommentDeleteView Fixture.site
         (Fixture.edit_comment_request (Some Fixture.bob))
         (<[ "post_id" := PInt 2 ]> Fixture.comment_kwargs).
Proof.
  apply (C10_comment_views_ignore_post_id Fixture.validators Fixture.site).
  - reflexivity.
  - reflexivity.
  - reflexivity.
  - intros k Hk. by rewrite lookup_insert_ne.
Defined.

(** ** Requests without a login *)

(** No view writes to the database for an anonymous requester. *)
Lemma anonymous_request_writes_nothing (V : Validators) (now : Z) (name : UrlName)
    (db : DB) (request : HttpRequest) (kwargs : gmap string pyval) :
  user request = None ->
  snd (as_view V now name db request kwargs) = db.
Proof.
  intros Hu.
  destruct name; cbn [as_view];
    unfold IndexListView, PostDetailView, CategoryPostsView, ProfileEditView,
      ProfileListView, PostCreateView, PostEditView, PostDeleteView,
      CreateCommentView, CommentEditView, CommentDeleteView,
      LoginRequiredMixin_dispatch, run, respond, redirect, getitem,
      mbind, result_bind;
    rewrite ?Hu; cbn;
    repeat (innermost_case; cbn);
    reflexivity.
Qed.

(** C9, as amended: an anonymous request to a mutating route writes
    nothing.  Post creation and profile editing answer it with the redirect
    to the login page that carries the path of the request, and so does
    comment creation on an existing post.  Editing or deleting an existing
    post or comment answers it with the redirect of the ownership guard, to
    the post-detail path built from the key in the route. *)
Theorem C9_anonymous_mutating_requests (V : Validators) (now : Z) (db : DB)
    (request : HttpRequest) (kwargs : gmap string pyval) :
  user request = None ->
  (forall name, snd (as_view V now name db request kwargs) = db)
  /\ PostCreateView V db request kwargs = (RedirectToLogin (path request), db)
  /\ ProfileEditView V db request kwargs = (RedirectToLogin (path request), db)
  /\ (forall p,
        NoDup (List.map post_id (posts db)) -> In p (posts db) ->
        kwargs !! "post_id" = Some (PInt (post_id p)) ->
        CreateCommentView V now db request kwargs = (RedirectToLogin (path request), db)
        /\ (0 <= post_id p ->
            PostEditView V db request kwargs
            = (HttpResponseRedirect (post_detail_url (post_id p)), db)
            /\ PostDeleteView db request kwargs
               = (HttpResponseRedirect (post_detail_url (post_id p)), db)))
  /\ (forall c,
        NoDup (List.map comment_id (comment_rows db)) -> In c (comment_rows db) ->
        kwargs !! "comment_id" = Some (PInt (comment_id c)) ->
        0 <= comment_id c ->
        CommentEditView V db request kwargs
        = (HttpResponseRedirect (post_detail_url (comment_id c)), db)
        /\ CommentDeleteView db request kwargs
           = (HttpResponseRedirect (post_detail_url (comment_id c)), db)).
Proof.
  intros Hu. split; [|split; [|split; [|split]]].
  - intros name. by apply anonymous_request_writes_nothing.
  - unfold PostCreateView, LoginRequiredMixin_dispatch. by rewrite Hu.
  - unfold ProfileEditView, LoginRequiredMixin_dispatch. by rewrite Hu.
  - intros p Hnd Hin Hkw. split.
    + unfold CreateCommentView, getitem. rewrite Hkw. cbn.
      rewrite (get_by_key_or_404_pk post_id (posts db) p Hnd Hin). cbn.
      unfold LoginRequiredMixin_dispatch. by rewrite Hu.
    + intros Hpos.
      assert (Hobj : PostMixin_get_object db kwargs = Ok p) by (by apply get_object_pk).
      unfold PostEditView, PostDeleteView. rewrite Hobj, Hu. cbn.
      unfold getitem. rewrite Hkw. cbn.
      rewrite redirect_post_detail by done. done.
  - intros c Hnd Hin Hkw Hpos.
    assert (Hobj : Comment_get_object db kwargs = Ok c) by (by apply get_object_pk).
    unfold CommentEditView, CommentDeleteView. rewrite Hobj, Hu. cbn.
    unfold getitem. rewrite Hkw. cbn.
    rewrite redirect_post_detail by done. done.
Qed.

Lemma C9_anonymous_mutating_requests_witness :
  PostCreateView Fixture.validators Fixture.site
    (Fixture.edit_comment_request None) Fixture.comment_kwargs
  = (RedirectToLogin "/posts/1/7/eit_comment/", Fixture.site)
  /\ CommentEditView Fixture.validators Fixture.site
       (Fixture.edit_comment_request None) Fixture.comment_kwargs
     = (HttpResponseRedirect "/posts/7/", Fixture.site).
Proof.
  destruct (C9_anonymous_mutating_requests Fixture.validators Fixture.noon Fixture.site
              (Fixture.edit_comment_request None) Fixture.comment_kwargs eq_refl)
    as (_ & Hcreate & _ & _ & Hcomment).
  split; [exact Hcreate|].
  apply (Hcomment Fixture.bob_comment).
  - decide_closed.
  - left; reflexivity.
  - reflexivity.
  - cbn; lia.
Defined.

(** C9 as stated fails on the comment routes, which are not behind
    [LoginRequiredMixin]: the anonymous request to edit the comment of bob
    is answered by the redirect of the ownership guard to a post-detail
    path, not by a redirect to the login page. *)
Lemma C9_anonymous_comment_edit_not_sent_to_login :
  user (Fixture.edit_comment_request None) = None
  /\ In Fixture.bob_comment (comment_rows Fixture.site)
  /\ CommentEditView Fixture.validators Fixture.site
       (Fixture.edit_comment_request None) Fixture.comment_kwargs
     = (HttpResponseRedirect "/posts/7/", Fixture.site)
  /\ forall next,
       fst (CommentEditView Fixture.validators Fixture.site
              (Fixture.edit_comment_request None) Fixture.comment_kwargs)
       <> RedirectToLogin next.
Proof.
  assert (H : CommentEditView Fixture.validators Fixture.site
                (Fixture.edit_comment_request None) Fixture.comment_kwargs
              = (HttpResponseRedirect "/posts/7/", Fixture.site))
    by (vm_compute; reflexivity).
  split; [reflexivity|]. split; [left; reflexivity|]. split; [exact H|].
  intros next. rewrite H. discriminate.
Qed.

(** ** Listings *)

Lemma insert_desc_In (x y : Post * Z) (l : list (Post * Z)) :
  In y (insert_desc x l) <-> y = x \/ In y l.
Proof.
  induction l as [|z l IH]; cbn.
  - intuition.
  - destruct (pub_date z.1 <=? pub_date x.1); cbn; rewrite ?IH; intuition.
Qed.

(** Ordering moves rows and keeps them all. *)
Lemma order_by_In (y : Post * Z) (l : list (Post * Z)) :
  In y (order_by_pub_date_desc l) <-> In y l.
Proof.
  induction l as [|x l IH]; cbn; [done|].
  rewrite insert_desc_In, IH. intuition.
Qed.

Lemma annotate_In (db : DB) (l : list Post) (p : Post) (n : Z) :
  In (p, n) (annotate db l) <-> In p l /\ n = comment_count db p.
Proof.
  unfold annotate. rewrite in_map_iff. split.
  - intros (q & [= -> <-] & Hq). done.
  - intros [Hp ->]. by exists p.
Qed.

(** Every row of a query set is on one of its pages. *)
Lemma every_row_on_some_page {A : Type} (l : list A) (x : A) :
  In x l ->
  exists k,
    1 <= k <= num_pages (List.length l)
    /\ In x (take paginate_by (drop (Z.to_nat (k - 1) * paginate_by) l)).
Proof.
  intros Hx. apply list_elem_of_In, list_elem_of_lookup in Hx as [i Hi].
  assert (Hlt : (i < List.length l)%nat) by (by eapply lookup_lt_Some).
  exists (Z.of_nat i / 10 + 1).
  assert (Hdiv : 0 <= Z.of_nat i / 10) by (apply Z.div_pos; lia).
  split.
  - split; [lia|]. unfold num_pages, paginate_by.
    replace (Z.of_nat i / 10 + 1) with ((Z.of_nat i + 1 * 10) / 10)
      by (rewrite Z.div_add; lia).
    etrans; [|apply Z.le_max_r]. apply Z.div_le_mono; lia.
  - apply list_elem_of_In, list_elem_of_lookup. exists (i mod 10)%nat.
    unfold paginate_by.
    rewrite lookup_take_lt by (apply Nat.mod_upper_bound; lia).
    rewrite lookup_drop.
    replace (Z.to_nat (Z.of_nat i / 10 + 1 - 1)) with (i / 10)%nat
      by (rewrite <- (Nat2Z.id (i / 10)), Nat2Z.inj_div; f_equal; lia).
    rewrite <- Hi. f_equal. pose proof (Nat.div_mod_eq i 10). lia.
Qed.

Lemma filter_username_unique (table : list User) (u : User) :
  NoDup (List.map username table) -> In u table ->
  List.filter (fun r => bool_decide (username r = username u)) table = [u].
Proof.
  induction table as [|r table IH]; intros Hnd Hin; [destruct Hin|].
  apply NoDup_cons in Hnd as [Hr Hnd]. cbn [List.filter].
  destruct Hin as [->|Hin].
  - rewrite bool_decide_eq_true_2 by done. f_equal.
    apply filter_none. intros r' Hr'. apply bool_decide_eq_false_2. intros Heq.
    apply Hr. rewrite <- Heq. apply list_elem_of_In, in_map, Hr'.
  - rewrite bool_decide_eq_false_2; [by apply IH|]. intros Heq.
    apply Hr. rewrite Heq. apply list_elem_of_In, in_map, Hin.
Qed.

(** The code's count of comments is the count of the specification. *)
Lemma comment_count_associated (db : DB) (p : Post) :
  comment_count db p = associated_comments (post_id p) (comment_rows db).
Proof.
  unfold comment_count. induction (comment_rows db) as [|c rows IH]; [done|].
  cbn [List.filter associated_comments].
  destruct (comments c =? post_id p); cbn [List.length]; lia.
Qed.

(** C6: the profile route of a user lists every post of that user, each
    with the count of the comment rows associated with it, to any
    requester; nothing but the author decides whether a post is listed. *)
Theorem C6_profile_lists_every_post_of_user (db : DB) (request : HttpRequest)
    (kwargs : gmap string pyval) (owner : User) (p : Post) :
  NoDup (List.map username (users db)) ->
  In owner (users db) ->
  kwargs !! "username" = Some (PStr (username owner)) ->
  kwargs !! "page" = None ->
  method request = GET ->
  In p (posts db) ->
  author p = user_id owner ->
  (exists queryset,
     ProfileListView_get_queryset db kwargs = Ok queryset
     /\ forall q n,
          In (q, n) queryset
          <-> In q (posts db) /\ author q = user_id owner
              /\ n = associated_comments (post_id q) (comment_rows db))
  /\ exists k page_obj,
       ProfileListView db (with_query request {[ "page" := PInt k ]}) kwargs
       = (TemplateResponse "blog/profile.html" (ProfileContext page_obj owner), db)
       /\ In (p, associated_comments (post_id p) (comment_rows db)) page_obj.
Proof.
  intros Hnd Howner Hkw Hpage Hget Hp Hauthor.
  assert (Hqs : ProfileListView_get_queryset db kwargs
                = Ok (order_by_pub_date_desc
                        (annotate db
                           (List.filter (fun q => author q =? user_id owner) (posts db))))).
  { unfold ProfileListView_get_queryset, getitem. rewrite Hkw. cbn.
    by rewrite filter_username_unique. }
  assert (Hmem : forall q n,
            In (q, n) (order_by_pub_date_desc
                         (annotate db
                            (List.filter (fun q => author q =? user_id owner) (posts db))))
            <-> In q (posts db) /\ author q = user_id owner
                /\ n = associated_comments (post_id q) (comment_rows db)).
  { intros q n.
    rewrite order_by_In, annotate_In, filter_In, Z.eqb_eq, comment_count_associated.
    tauto. }
  split; [eexists; split; [exact Hqs|exact Hmem]|].
  destruct (every_row_on_some_page _ (p, associated_comments (post_id p) (comment_rows db))
              (proj2 (Hmem p _) (conj Hp (conj Hauthor eq_refl))))
    as (k & [Hk1 Hk2] & Hin).
  exists k. eexists. split; [|exact Hin].
  unfold ProfileListView. cbn. rewrite Hget, Hqs. cbn.
  unfold paginate_queryset, requested_page. rewrite Hpage. cbn.
  rewrite lookup_singleton_eq. cbn.
  destruct (Z.ltb_spec k 1) as [?|_]; [lia|].
  destruct (Z.ltb_spec (num_pages (List.length
              (order_by_pub_date_desc
                 (annotate db
                    (List.filter (fun q => author q =? user_id owner) (posts db))))))
              k) as [?|_]; [lia|].
  cbn. unfold getitem. rewrite Hkw. cbn.
  by rewrite filter_username_unique.
Qed.

Lemma C6_profile_lists_every_post_of_user_witness :
  (exists k page_obj,
     ProfileListView Fixture.busy_site
       (with_query (Fixture.request GET None "/profile/bob/" ∅) {[ "page" := PInt k ]})
       {[ "username" := PStr "bob" ]}
     = (TemplateResponse "blog/profile.html" (ProfileContext page_obj Fixture.bob),
        Fixture.busy_site)
     /\ In (Fixture.old_post, 2) page_obj)
  /\ (exists k page_obj,
        ProfileListView Fixture.busy_site
          (with_query (Fixture.request GET None "/profile/alice/" ∅)
             {[ "page" := PInt k ]})
          {[ "username" := PStr "alice" ]}
        = (TemplateResponse "blog/profile.html" (ProfileContext page_obj Fixture.alice),
           Fixture.busy_site)
        /\ In (Fixture.draft_post, 0) page_obj).
Proof.
  split.
  - destruct (C6_profile_lists_every_post_of_user Fixture.busy_site
                (Fixture.request GET None "/profile/bob/" ∅)
                {[ "username" := PStr "bob" ]} Fixture.bob Fixture.old_post)
      as [_ H].
    + decide_closed.
    + right; left; reflexivity.
    + reflexivity.
    + reflexivity.
    + reflexivity.
    + right; right; left; reflexivity.
    + reflexivity.
    + exact H.
  - destruct (C6_profile_lists_every_post_of_user Fixture.busy_site
                (Fixture.request GET None "/profile/alice/" ∅)
                {[ "username" := PStr "alice" ]} Fixture.alice Fixture.draft_post)
      as [_ H].
    + decide_closed.
    + left; reflexivity.
    + reflexivity.
    + reflexivity.
    + reflexivity.
    + right; left; reflexivity.
    + reflexivity.
    + exact H.
Defined.

(** The rows of the index: published, in a published category, dated
    before today. *)
Lemma index_lists_iff (now : Z) (db : DB) (p : Post) (n : Z) :
  In (p, n) (IndexListView_get_queryset now db)
  <-> In p (posts db)
      /\ is_published p = true
      /\ post_category_is_published db p = true
      /\ date (pub_date p) < date now
      /\ n = comment_count db p.
Proof.
  unfold IndexListView_get_queryset, get_post.
  rewrite order_by_In, annotate_In, filter_In, !andb_true_iff, Z.ltb_lt. tauto.
Qed.

Lemma date_lt_inv (t t' : Z) : date t < date t' -> t < t'.
Proof.
  unfold date, SECONDS_PER_DAY. intros H.
  destruct (Z.lt_ge_cases t t') as [|Hge]; [done|].
  apply (Z.div_le_mono _ _ 86400) in Hge; lia.
Qed.

(** The index shows no post that fails the visibility predicate. *)
Lemma listed_post_is_visible (now : Z) (db : DB) (p : Post) (n : Z) :
  In (p, n) (IndexListView_get_queryset now db) -> publicly_visible now db p = true.
Proof.
  rewrite index_lists_iff. intros (_ & Hpub & Hcat & Hdate & _).
  unfold publicly_visible. rewrite Hpub, Hcat. cbn.
  rewrite andb_true_r. apply Z.leb_le. apply date_lt_inv in Hdate. lia.
Qed.

(** C1: the post that alice published this morning satisfies the
    visibility predicate at noon, and the detail view shows it to bob, but
    [get_post] compares calendar days with [lt]: the index and the listing
    of its category leave it out until tomorrow. *)
Theorem C1_post_of_today_is_not_listed :
  In Fixture.today_post (posts Fixture.site)
  /\ publicly_visible Fixture.noon Fixture.site Fixture.today_post = true
  /\ IndexListView Fixture.noon Fixture.site (Fixture.request GET None "/" ∅) ∅
     = (TemplateResponse "blog/index.html" (IndexContext []), Fixture.site)
  /\ CategoryPostsView Fixture.noon Fixture.site
       (Fixture.request GET None "/category/travel/" ∅)
       {[ "category_slug" := PStr "travel" ]}
     = (TemplateResponse "blog/category.html" (CategoryContext [] Fixture.travel),
        Fixture.site)
  /\ PostDetailView Fixture.noon Fixture.site
       (Fixture.request GET (Some Fixture.bob) "/posts/1/" ∅) {[ "post_id" := PInt 1 ]}
     = (TemplateResponse "blog/detail.html"
          (DetailContext Fixture.today_post [Fixture.bob_comment]),
        Fixture.site).
Proof.
  split; [left; reflexivity|].
  repeat split; vm_compute; reflexivity.
Qed.

(** * Further properties of the views *)

(** ** What a request writes *)

Lemma get_object_In {A : Type} (pk : A -> Z) (table : list A) (name : string)
    (kwargs : gmap string pyval) (row : A) :
  get_object pk table name kwargs = Ok row ->
  In row table /\ exists v, kwargs !! name = Some v /\ to_int v = Ok (pk row).
Proof.
  unfold get_object. destruct (kwargs !! name) as [v|] eqn:Hv.
  - destruct (to_int v) as [n|] eqn:Hn; cbn; [|discriminate].
    intros H. apply get_by_key_or_404_In in H as [Hin Hpk].
    subst n. eauto.
  - destruct (kwargs !! "slug"); discriminate.
Qed.

Lemma respond_snd (db : DB) (r : result HttpResponse) : (respond db r).2 = db.
Proof. by destruct r. Qed.

Lemma is_user_self (u : User) : is_user (user_id u) (Some u) = true.
Proof. apply Z.eqb_refl. Qed.

Lemma PostCreateView_form_valid_snd (db : DB) (u : User) (obj : Post) :
  (PostCreateView_form_valid db u obj).2 = (insert_post db (set_post_author obj u)).2.
Proof. unfold PostCreateView_form_valid. cbn. by rewrite respond_snd. Qed.

Lemma CreateCommentView_form_valid_snd (now : Z) (db : DB)
    (kwargs : gmap string pyval) (post_obj : Post) (u : User) (obj : Comment) :
  (CreateCommentView_form_valid now db kwargs post_obj u obj).2
  = (insert_comment db (set_comment_post_author obj post_obj u now)).2.
Proof. unfold CreateCommentView_form_valid. cbn. by rewrite respond_snd. Qed.

Section Writes.
Context (V : Validators) (now : Z) (db : DB) (request : HttpRequest)
  (kwargs : gmap string pyval).

Lemma write_nothing : authorized_write (user request) db db.
Proof. apply write_comments, write_no_comment. Qed.

Lemma ProfileEditView_writes :
  authorized_write (user request) db (ProfileEditView V db request kwargs).2.
Proof.
  unfold ProfileEditView, LoginRequiredMixin_dispatch.
  destruct (user request) as [u|] eqn:Hu; [|rewrite <- Hu; apply write_nothing].
  rewrite <- Hu.
  destruct (method request); [apply write_nothing|].
  destruct (EditProfileForm_is_valid V db u (data request)) as [cleaned|];
    [|apply write_nothing].
  rewrite respond_snd. by apply (write_user _ _ u).
Qed.

Lemma PostCreateView_writes :
  authorized_write (user request) db (PostCreateView V db request kwargs).2.
Proof.
  unfold PostCreateView, LoginRequiredMixin_dispatch.
  destruct (user request) as [u|] eqn:Hu; [|rewrite <- Hu; apply write_nothing].
  rewrite <- Hu.
  destruct (method request); [apply write_nothing|].
  destruct (PostForm_is_valid V db (data request)) as [cleaned|]; [|apply write_nothing].
  rewrite PostCreateView_form_valid_snd.
  apply write_new_post. rewrite Hu. apply is_user_self.
Qed.

Lemma PostEditView_writes :
  authorized_write (user request) db (PostEditView V db request kwargs).2.
Proof.
  unfold PostEditView.
  destruct (PostMixin_get_object db kwargs) as [obj|e] eqn:Hobj; cbn;
    [|apply write_nothing].
  destruct (is_user (author obj) (user request)) eqn:Hown; cbn.
  - unfold LoginRequiredMixin_dispatch.
    destruct (user request) as [u|] eqn:Hu; [|rewrite <- Hu; apply write_nothing].
    rewrite <- Hu in *. cbn.
    apply get_object_In in Hobj as [Hin _].
    destruct (method request); [apply write_nothing|].
    destruct (PostForm_is_valid V db (data request)) as [cleaned|];
      [|apply write_nothing].
    cbn -[update_post]. rewrite respond_snd.
    by apply (write_post _ _ obj).
  - destruct (getitem kwargs "post_id") as [v|]; cbn; [|apply write_nothing].
    destruct (redirect post_detail _); apply write_nothing.
Qed.

Lemma PostDeleteView_writes :
  authorized_write (user request) db (PostDeleteView db request kwargs).2.
Proof.
  unfold PostDeleteView.
  destruct (PostMixin_get_object db kwargs) as [obj|e] eqn:Hobj; cbn;
    [|apply write_nothing].
  destruct (is_user (author obj) (user request)) eqn:Hown; cbn.
  - unfold LoginRequiredMixin_dispatch.
    destruct (user request) as [u|] eqn:Hu; [|rewrite <- Hu; apply write_nothing].
    rewrite <- Hu in *. cbn.
    apply get_object_In in Hobj as [Hin _].
    destruct (method request); [apply write_nothing|].
    cbn -[delete_post_row]. by apply write_post_removed.
  - destruct (getitem kwargs "post_id") as [v|]; cbn; [|apply write_nothing].
    destruct (redirect post_detail _); apply write_nothing.
Qed.

Lemma CreateCommentView_writes :
  comment_write (user request) db (CreateCommentView V now db request kwargs).2.
Proof.
  unfold CreateCommentView.
  destruct (getitem kwargs "post_id") as [v|];
    cbn -[CreateCommentView_form_valid]; [|constructor].
  destruct (to_int v) as [n|]; cbn -[CreateCommentView_form_valid]; [|constructor].
  destruct (get_by_key_or_404 _ _ _) as [post_obj|] eqn:Hpost;
    cbn -[CreateCommentView_form_valid]; [|constructor].
  apply get_by_key_or_404_In in Hpost as [Hin _].
  unfold LoginRequiredMixin_dispatch.
  destruct (user request) as [u|] eqn:Hu; [|constructor].
  destruct (method request); [constructor|].
  destruct (CommentForm_is_valid V (data request)) as [cleaned|]; [|constructor].
  rewrite CreateCommentView_form_valid_snd.
  apply (write_new_comment _ _ _ post_obj); [done|done|apply is_user_self].
Qed.

Lemma CommentEditView_writes :
  comment_write (user request) db (CommentEditView V db request kwargs).2.
Proof.
  unfold CommentEditView.
  destruct (Comment_get_object db kwargs) as [obj|e] eqn:Hobj; cbn; [|constructor].
  destruct (is_user (comment_author obj) (user request)) eqn:Hown; cbn.
  - apply get_object_In in Hobj as [Hin _].
    destruct (method request); [constructor|].
    destruct (CommentForm_is_valid V (data request)) as [cleaned|]; [|constructor].
    cbn -[update_comment]. rewrite respond_snd.
    by apply (write_comment _ _ obj).
  - destruct (getitem kwargs "comment_id") as [v|]; cbn; [|constructor].
    destruct (redirect post_detail _); constructor.
Qed.

Lemma CommentDeleteView_writes :
  comment_write (user request) db (CommentDeleteView db request kwargs).2.
Proof.
  unfold CommentDeleteView.
  destruct (Comment_get_object db kwargs) as [obj|e] eqn:Hobj; cbn; [|constructor].
  destruct (is_user (comment_author obj) (user request)) eqn:Hown; cbn.
  - apply get_object_In in Hobj as [Hin _].
    destruct (method request); [constructor|].
    destruct (getitem kwargs "comment_id") as [v|]; cbn; [|constructor].
    destruct (reverse post_detail _); cbn -[delete_comment_row]; [|constructor].
    by apply write_comment_removed.
  - destruct (getitem kwargs "comment_id") as [v|]; cbn; [|constructor].
    destruct (redirect post_detail _); constructor.
Qed.

Lemma listing_views_write_nothing :
  (IndexListView now db request kwargs).2 = db
  /\ (PostDetailView now db request kwargs).2 = db
  /\ (CategoryPostsView now db request kwargs).2 = db
  /\ (ProfileListView db request kwargs).2 = db.
Proof.
  unfold IndexListView, PostDetailView, CategoryPostsView, ProfileListView,
    LoginRequiredMixin_dispatch.
  repeat split; repeat (innermost_case; cbn; rewrite ?respond_snd); reflexivity.
Qed.

(** Whatever the route, a request writes at most once, and only a row that
    belongs to the requester. *)
Lemma as_view_writes (name : UrlName) :
  authorized_write (user request) db (as_view V now name db request kwargs).2.
Proof.
  destruct listing_views_write_nothing as (Hi & Hd & Hc & Hp).
  destruct name; cbn [as_view]; rewrite ?Hi, ?Hd, ?Hc, ?Hp;
    auto using write_nothing, write_comments, ProfileEditView_writes,
      PostCreateView_writes, PostEditView_writes, PostDeleteView_writes,
      CreateCommentView_writes, CommentEditView_writes, CommentDeleteView_writes.
Qed.

End Writes.

(** ** Keys stay unique *)

Lemma NoDup_map_filter {A B : Type} (f : A -> B) (g : A -> bool) (l : list A) :
  NoDup (List.map f l) -> NoDup (List.map f (List.filter g l)).
Proof.
  induction l as [|x l IH]; cbn; [done|].
  intros [Hx Hl]%NoDup_cons. destruct (g x); cbn; [|by apply IH].
  apply NoDup_cons. split; [|by apply IH].
  intros Hin. apply Hx. apply list_elem_of_In in Hin. apply list_elem_of_In.
  apply in_map_iff in Hin as (y & <- & Hy). apply filter_In in Hy as [Hy _].
  by apply in_map.
Qed.

Lemma Forall_filter_keep {A : Type} (P : A -> Prop) (g : A -> bool) (l : list A) :
  Forall P l -> Forall P (List.filter g l).
Proof.
  rewrite !List.Forall_forall. intros H x [Hx _]%filter_In. by apply H.
Qed.

(** Saving a row under its own key leaves the keys of the table. *)
Lemma map_key_replace {A : Type} (pk : A -> Z) (new : A) (l : list A) :
  List.map pk (List.map (fun r => if pk r =? pk new then new else r) l) = List.map pk l.
Proof.
  rewrite List.map_map. apply List.map_ext. intros r.
  by destruct (Z.eqb_spec (pk r) (pk new)).
Qed.

Lemma NoDup_map_snoc {A : Type} (pk : A -> Z) (l : list A) (row : A) (bound : Z) :
  NoDup (List.map pk l) -> Forall (fun r => pk r <= bound) l -> bound < pk row ->
  NoDup (List.map pk (l ++ [row])).
Proof.
  intros Hnd Hle Hlt. rewrite List.map_app. cbn. apply NoDup_app.
  split; [done|]. split; [|apply NoDup_singleton].
  intros k Hk ->%list_elem_of_singleton.
  apply list_elem_of_In, in_map_iff in Hk as (r & Heq & Hr).
  rewrite List.Forall_forall in Hle. specialize (Hle r Hr). lia.
Qed.

Lemma comment_write_keys_ok (u : option User) (db db' : DB) :
  comment_write u db db' -> keys_ok db -> keys_ok db'.
Proof.
  intros Hw [Hp Hc Hps Hcs]. destruct Hw; [done| | |]; split; cbn; try done.
  - apply (NoDup_map_snoc comment_id _ _ (comment_seq db)); [done|done|cbn; lia].
  - apply Forall_app. split.
    + eapply Forall_impl; [exact Hcs|]. cbn. intros; lia.
    + repeat constructor. cbn. lia.
  - by rewrite map_key_replace.
  - rewrite List.Forall_forall in *. intros c (r & <- & Hr)%in_map_iff.
    destruct (Z.eqb_spec (comment_id r) (comment_id new)) as [Heq|_]; [|by apply Hcs].
    rewrite <- Heq. by apply Hcs.
  - by apply NoDup_map_filter.
  - by apply Forall_filter_keep.
Qed.

Lemma authorized_write_keys_ok (u : option User) (db db' : DB) :
  authorized_write u db db' -> keys_ok db -> keys_ok db'.
Proof.
  intros Hw Hok. destruct Hw as [db' Hw| | | |];
    [exact (comment_write_keys_ok _ _ _ Hw Hok)| | | |];
    destruct Hok as [Hp Hc Hps Hcs]; split; cbn; try done.
  - apply (NoDup_map_snoc post_id _ _ (post_seq db)); [done|done|cbn; lia].
  - apply Forall_app. split.
    + eapply Forall_impl; [exact Hps|]. cbn. intros; lia.
    + repeat constructor. cbn. lia.
  - by rewrite map_key_replace.
  - rewrite List.Forall_forall in *. intros c (r & <- & Hr)%in_map_iff.
    destruct (Z.eqb_spec (post_id r) (post_id new)) as [Heq|_]; [|by apply Hps].
    rewrite <- Heq. by apply Hps.
  - by apply NoDup_map_filter.
  - by apply NoDup_map_filter.
  - by apply Forall_filter_keep.
  - by apply Forall_filter_keep.
Qed.

(** Whatever the route, the requester and the payload, a request leaves
    the primary keys of posts and of comments unique and within the
    sequences that issue them. *)
Theorem requests_keep_keys_ok (V : Validators) (now : Z) (name : UrlName) (db : DB)
    (request : HttpRequest) (kwargs : gmap string pyval) :
  keys_ok db -> keys_ok (as_view V now name db request kwargs).2.
Proof.
  intros Hok. eapply authorized_write_keys_ok; [apply as_view_writes|exact Hok].
Qed.

Lemma site_keys_ok : keys_ok Fixture.site.
Proof. split; decide_closed. Qed.

Lemma requests_keep_keys_ok_witness :
  keys_ok (as_view Fixture.validators Fixture.noon create_post Fixture.site
             Fixture.honest_create ∅).2.
Proof. apply requests_keep_keys_ok. apply site_keys_ok. Defined.

(** ** Rows of other users *)

Lemma comment_write_other_tables (u : option User) (db db' : DB) :
  comment_write u db db' ->
  posts db' = posts db /\ users db' = users db
  /\ categories db' = categories db /\ locations db' = locations db.
Proof. by destruct 1. Qed.

Lemma is_user_differs (a b : Z) (u : option User) :
  is_user a u = true -> is_user b u = false -> a <> b.
Proof. intros Ha Hb ->. congruence. Qed.

(** X1: no request, on any route and with any payload, changes or removes
    a post whose author is not the requester. *)
Theorem requests_keep_posts_of_others (V : Validators) (now : Z) (name : UrlName)
    (db : DB) (request : HttpRequest) (kwargs : gmap string pyval) (p : Post) :
  NoDup (List.map post_id (posts db)) ->
  In p (posts db) ->
  is_user (author p) (user request) = false ->
  In p (posts (as_view V now name db request kwargs).2).
Proof.
  intros Hnd Hin Hother.
  destruct (as_view_writes V now db request kwargs name) as [db' Hw|obj _|old new Hold Hown Hid _|old Hold Hown|old new _ _].
  - apply comment_write_other_tables in Hw as (-> & _). done.
  - cbn. apply in_app_iff. by left.
  - cbn. apply in_map_iff. exists p. split; [|done].
    destruct (Z.eqb_spec (post_id p) (post_id new)) as [Heq|_]; [|done].
    rewrite Hid in Heq. apply (pk_inj post_id _ _ _ Hnd Hold Hin) in Heq. subst p.
    congruence.
  - cbn. apply filter_In. split; [done|]. apply negb_true_iff, Z.eqb_neq.
    intros Heq. apply (pk_inj post_id _ _ _ Hnd Hold Hin) in Heq. subst p.
    congruence.
  - done.
Qed.

Lemma requests_keep_posts_of_others_witness :
  In Fixture.today_post
    (posts (as_view Fixture.validators Fixture.noon edit_post Fixture.site
              (Fixture.request POST (Some Fixture.bob) "/posts/1/edit/"
                 Fixture.create_payload)
              {[ "post_id" := PInt 1 ]}).2).
Proof.
  apply requests_keep_posts_of_others.
  - decide_closed.
  - left; reflexivity.
  - reflexivity.
Defined.

(** X2: a request changes no row of the user table but the one of the
    requester, and never writes to the categories or the locations. *)
Theorem requests_keep_other_users (V : Validators) (now : Z) (name : UrlName)
    (db : DB) (request : HttpRequest) (kwargs : gmap string pyval) :
  categories (as_view V now name db request kwargs).2 = categories db
  /\ locations (as_view V now name db request kwargs).2 = locations db
  /\ forall w, In w (users db) -> is_user (user_id w) (user request) = false ->
       In w (users (as_view V now name db request kwargs).2).
Proof.
  destruct (as_view_writes V now db request kwargs name) as [db' Hw|obj _|old new _ _ _ _|old _ _|old new Hu Hid].
  - apply comment_write_other_tables in Hw as (_ & -> & -> & ->). done.
  - done.
  - done.
  - done.
  - cbn. repeat split. intros w Hw Hother. apply in_map_iff. exists w. split; [|done].
    destruct (Z.eqb_spec (user_id w) (user_id new)) as [Heq|_]; [|done].
    rewrite Hu in Hother. cbn in Hother. apply Z.eqb_neq in Hother. congruence.
Qed.

Lemma requests_keep_other_users_witness :
  In Fixture.alice
    (users (as_view Fixture.validators Fixture.noon edit_profile Fixture.site
              (Fixture.request POST (Some Fixture.bob) "/profile/edit/"
                 {[ "username" := PStr "alice" ]}) ∅).2).
Proof.
  apply requests_keep_other_users.
  - left; reflexivity.
  - reflexivity.
Defined.

(** X3: a request to add, edit or delete a comment changes or removes no
    comment whose author is not the requester, and writes to no other
    table. *)
Theorem comment_routes_keep_comments_of_others (V : Validators) (now : Z)
    (name : UrlName) (db : DB) (request : HttpRequest) (kwargs : gmap string pyval)
    (c : Comment) :
  name = add_comment \/ name = edit_comment \/ name = delete_comment ->
  NoDup (List.map comment_id (comment_rows db)) ->
  In c (comment_rows db) ->
  is_user (comment_author c) (user request) = false ->
  In c (comment_rows (as_view V now name db request kwargs).2)
  /\ posts (as_view V now name db request kwargs).2 = posts db
  /\ users (as_view V now name db request kwargs).2 = users db.
Proof.
  intros Hname Hnd Hin Hother.
  assert (Hw : comment_write (user request) db (as_view V now name db request kwargs).2).
  { destruct Hname as [-> | [-> | ->]]; cbn [as_view];
      auto using CreateCommentView_writes, CommentEditView_writes,
        CommentDeleteView_writes. }
  destruct (comment_write_other_tables _ _ _ Hw) as (Hposts & Husers & _).
  split; [|done].
  destruct Hw as [ | obj q Hq Hobj Hobj' | old new Hold Hown Hid Ha Hp Hc | old Hold Hown ].
  - done.
  - cbn. apply in_app_iff. by left.
  - cbn. apply in_map_iff. exists c. split; [|done].
    destruct (Z.eqb_spec (comment_id c) (comment_id new)) as [Heq|_]; [|done].
    rewrite Hid in Heq. apply (pk_inj comment_id _ _ _ Hnd Hold Hin) in Heq. subst c.
    congruence.
  - cbn. apply filter_In. split; [done|]. apply negb_true_iff, Z.eqb_neq.
    intros Heq. apply (pk_inj comment_id _ _ _ Hnd Hold Hin) in Heq. subst c.
    congruence.
Qed.

Lemma comment_routes_keep_comments_of_others_witness :
  In Fixture.bob_comment
    (comment_rows (as_view Fixture.validators Fixture.noon delete_comment Fixture.site
                     (Fixture.edit_comment_request (Some Fixture.alice))
                     Fixture.comment_kwargs).2).
Proof.
  apply comment_routes_keep_comments_of_others.
  - right; right; reflexivity.
  - decide_closed.
  - left; reflexivity.
  - reflexivity.
Defined.

(** X4: a GET request writes nothing, whatever the route and the
    requester. *)
Theorem get_requests_write_nothing (V : Validators) (now : Z) (name : UrlName)
    (db : DB) (request : HttpRequest) (kwargs : gmap string pyval) :
  method request = GET ->
  (as_view V now name db request kwargs).2 = db.
Proof.
  intros Hget.
  destruct name; cbn [as_view];
    unfold IndexListView, PostDetailView, CategoryPostsView, ProfileEditView,
      ProfileListView, PostCreateView, PostEditView, PostDeleteView,
      CreateCommentView, CommentEditView, CommentDeleteView,
      LoginRequiredMixin_dispatch, run, respond, redirect, getitem,
      mbind, result_bind;
    rewrite ?Hget; cbn;
    repeat (innermost_case; cbn);
    reflexivity.
Qed.

Lemma get_requests_write_nothing_witness :
  (as_view Fixture.validators Fixture.noon delete_post Fixture.site
     (Fixture.request GET (Some Fixture.alice) "/posts/1/delete/" ∅)
     {[ "post_id" := PInt 1 ]}).2
  = Fixture.site.
Proof. apply get_requests_write_nothing. reflexivity. Defined.

(** ** Listings: what is shown, in which order, on which page *)

Lemma paginate_queryset_Ok {A : Type} (kwargs : gmap string pyval)
    (request : HttpRequest) (queryset page_obj : list A) :
  paginate_queryset kwargs request queryset = Ok page_obj ->
  exists k : nat,
    page_obj = take paginate_by (drop (k * paginate_by) queryset)
    /\ (Z.of_nat k < num_pages (List.length queryset)).
Proof.
  unfold paginate_queryset.
  set (last := num_pages (List.length queryset)).
  destruct (match requested_page kwargs request with
            | PInt n => Ok n
            | PStr s => if bool_decide (s = "last") then Ok last else Raise Http404
            | PBool b => Ok (if b then 1 else 0)
            end) as [number|e]; cbn; [|discriminate].
  destruct (Z.ltb_spec number 1); cbn; [discriminate|].
  destruct (Z.ltb_spec last number); cbn; [discriminate|].
  intros [= <-]. exists (Z.to_nat (number - 1)). split; [done|]. lia.
Qed.

(** Pagination fails with [Http404] only. *)
Lemma paginate_queryset_Raise {A : Type} (kwargs : gmap string pyval)
    (request : HttpRequest) (queryset : list A) (e : exn) :
  paginate_queryset kwargs request queryset = Raise e -> e = Http404.
Proof.
  unfold paginate_queryset.
  destruct (requested_page kwargs request) as [n|s|b]; cbn.
  - destruct (_ || _); congruence.
  - destruct (bool_decide (s = "last")); cbn; [|congruence].
    destruct (_ || _); congruence.
  - destruct (_ || _); congruence.
Qed.

Lemma paginate_queryset_In {A : Type} (kwargs : gmap string pyval)
    (request : HttpRequest) (queryset page_obj : list A) (x : A) :
  paginate_queryset kwargs request queryset = Ok page_obj ->
  In x page_obj -> In x queryset.
Proof.
  intros (k & -> & _)%paginate_queryset_Ok Hx.
  apply list_elem_of_In, elem_of_take in Hx as (i & Hi & _).
  rewrite lookup_drop in Hi. by eapply list_elem_of_In, list_elem_of_lookup_2.
Qed.

Lemma category_lists_iff (now : Z) (db : DB) (kwargs : gmap string pyval)
    (queryset : list (Post * Z)) (p : Post) (n : Z) :
  CategoryPostsView_get_queryset now db kwargs = Ok queryset ->
  In (p, n) queryset
  <-> exists v, kwargs !! "category_slug" = Some v
      /\ In (p, comment_count db p) (IndexListView_get_queryset now db)
      /\ post_category_slug_is db (str v) p = true
      /\ n = comment_count db p.
Proof.
  unfold CategoryPostsView_get_queryset, getitem.
  destruct (kwargs !! "category_slug") as [v|]; cbn; [|discriminate].
  intros [= <-]. rewrite order_by_In, annotate_In, filter_In.
  unfold IndexListView_get_queryset. split.
  - intros [[Hp Hs] ->]. exists v. rewrite order_by_In, annotate_In. done.
  - intros (? & [= <-] & H & Hs & ->). rewrite order_by_In, annotate_In in H.
    tauto.
Qed.

(** X5: every row on a page of the index is a post of the site that passes
    the visibility predicate, shown with the number of its comments. *)
Theorem index_page_shows_only_visible_posts (now : Z) (db db' : DB)
    (request : HttpRequest) (kwargs : gmap string pyval) (template : string)
    (page_obj : list (Post * Z)) (p : Post) (n : Z) :
  IndexListView now db request kwargs
  = (TemplateResponse template (IndexContext page_obj), db') ->
  In (p, n) page_obj ->
  In p (posts db) /\ publicly_visible now db p = true /\ n = comment_count db p.
Proof.
  unfold IndexListView. destruct (method request); [|discriminate].
  destruct (paginate_queryset kwargs request (IndexListView_get_queryset now db))
    as [page|e] eqn:Hpage; cbn; [|destruct e; discriminate].
  intros [= _ <- _] Hin.
  apply (paginate_queryset_In _ _ _ _ _ Hpage) in Hin.
  pose proof (listed_post_is_visible _ _ _ _ Hin) as Hvis.
  apply index_lists_iff in Hin. tauto.
Qed.

Lemma index_page_shows_only_visible_posts_witness :
  In Fixture.today_post (posts Fixture.site)
  /\ publicly_visible Fixture.next_noon Fixture.site Fixture.today_post = true
  /\ 1 = comment_count Fixture.site Fixture.today_post.
Proof.
  apply (index_page_shows_only_visible_posts Fixture.next_noon Fixture.site Fixture.site
           (Fixture.request GET None "/" ∅) ∅ "blog/index.html"
           [(Fixture.today_post, 1)]).
  - vm_compute. reflexivity.
  - left; reflexivity.
Defined.

(** X6: every row on a page of a category listing is a visible post of the
    site whose category carries the slug of the route, and the category
    shown with the page is published and carries that slug. *)
Theorem category_page_shows_visible_posts_of_category (now : Z) (db db' : DB)
    (request : HttpRequest) (kwargs : gmap string pyval) (template : string)
    (page_obj : list (Post * Z)) (shown : Category) (p : Post) (n : Z) :
  CategoryPostsView now db request kwargs
  = (TemplateResponse template (CategoryContext page_obj shown), db') ->
  In (p, n) page_obj ->
  exists v c,
    kwargs !! "category_slug" = Some v
    /\ In p (posts db) /\ publicly_visible now db p = true
    /\ category_of db p = Some c /\ slug c = str v
    /\ In shown (categories db) /\ category_is_published shown = true
    /\ slug shown = str v.
Proof.
  unfold CategoryPostsView. destruct (method request); [|discriminate].
  destruct (CategoryPostsView_get_queryset now db kwargs) as [qs|e] eqn:Hqs; cbn;
    [|destruct e; discriminate].
  destruct (paginate_queryset kwargs request qs) as [page|e] eqn:Hpage; cbn;
    [|destruct e; discriminate].
  unfold getitem. destruct (kwargs !! "category_slug") as [v|] eqn:Hv; cbn;
    [|discriminate].
  destruct (get_object_or_404 _) as [cat|e] eqn:Hcat; cbn; [|destruct e; discriminate].
  intros [= _ <- <- _] Hin.
  apply (paginate_queryset_In _ _ _ _ _ Hpage) in Hin.
  apply (category_lists_iff _ _ _ _ _ _ Hqs) in Hin as (v' & Hv' & Hidx & Hslug & _).
  rewrite Hv in Hv'. injection Hv' as <-.
  pose proof (listed_post_is_visible _ _ _ _ Hidx) as Hvis.
  apply index_lists_iff in Hidx as (Hp & _).
  apply get_object_or_404_In in Hcat as [Hcat Hc].
  apply andb_true_iff in Hc as [Hpub Hs]. apply bool_decide_eq_true in Hs.
  unfold post_category_slug_is in Hslug.
  destruct (category_of db p) as [c|] eqn:Hc; [|discriminate].
  apply bool_decide_eq_true in Hslug.
  exists v, c. done.
Qed.

Lemma category_page_shows_visible_posts_of_category_witness :
  exists v c,
    ({[ "category_slug" := PStr "travel" ]} : gmap string pyval) !! "category_slug" = Some v
    /\ In Fixture.today_post (posts Fixture.site)
    /\ publicly_visible Fixture.next_noon Fixture.site Fixture.today_post = true
    /\ category_of Fixture.site Fixture.today_post = Some c /\ slug c = str v
    /\ In Fixture.travel (categories Fixture.site)
    /\ category_is_published Fixture.travel = true
    /\ slug Fixture.travel = str v.
Proof.
  apply (category_page_shows_visible_posts_of_category Fixture.next_noon Fixture.site
           Fixture.site (Fixture.request GET None "/category/travel/" ∅)
           {[ "category_slug" := PStr "travel" ]} "blog/category.html"
           [(Fixture.today_post, 1)] Fixture.travel Fixture.today_post 1).
  - vm_compute. reflexivity.
  - left; reflexivity.
Defined.

(** X7: the listing of a category answers NotFound when no published
    category carries the slug of the route, whatever the page asked for,
    and writes nothing. *)
Theorem category_listing_not_found (now : Z) (db : DB) (request : HttpRequest)
    (kwargs : gmap string pyval) (v : pyval) :
  kwargs !! "category_slug" = Some v ->
  method request = GET ->
  (forall c, In c (categories db) -> slug c = str v -> category_is_published c = false) ->
  CategoryPostsView now db request kwargs = (HttpResponseNotFound, db).
Proof.
  intros Hv Hget Hnone. unfold CategoryPostsView. rewrite Hget.
  unfold CategoryPostsView_get_queryset, getitem. rewrite Hv. cbn.
  destruct (paginate_queryset kwargs request _) as [page|e] eqn:Hpage; cbn.
  - rewrite filter_none; [done|]. intros c Hc.
    destruct (category_is_published c) eqn:Hpub; [|done]. cbn.
    apply bool_decide_eq_false_2. intros Hs. specialize (Hnone c Hc Hs). congruence.
  - by apply paginate_queryset_Raise in Hpage as ->.
Qed.

Lemma category_listing_not_found_witness :
  CategoryPostsView Fixture.noon Fixture.site
    (Fixture.request GET None "/category/food/" ∅) {[ "category_slug" := PStr "food" ]}
  = (HttpResponseNotFound, Fixture.site).
Proof.
  apply (category_listing_not_found _ _ _ _ (PStr "food")).
  - reflexivity.
  - reflexivity.
  - intros c [<-|[]]. discriminate.
Defined.

(** A visible post is kept off the index exactly on the day of its date. *)
Lemma date_le (t t' : Z) : t <= t' -> date t <= date t'.
Proof. intros H. unfold date, SECONDS_PER_DAY. apply Z.div_le_mono; lia. Qed.

(** X8: a post of the site that passes the visibility predicate is in the
    index unless its date falls on the current day. *)
Theorem visible_post_listed_unless_dated_today (now : Z) (db : DB) (p : Post) :
  In p (posts db) ->
  publicly_visible now db p = true ->
  In (p, comment_count db p) (IndexListView_get_queryset now db)
  <-> date (pub_date p) <> date now.
Proof.
  intros Hin Hvis. unfold publicly_visible in Hvis.
  apply andb_true_iff in Hvis as [[Hpub Hdate]%andb_true_iff Hcat].
  apply Z.leb_le, date_le in Hdate.
  rewrite index_lists_iff. split; [intros (_ & _ & _ & ? & _); lia|].
  intros Hne. repeat split; try done. lia.
Qed.

Lemma visible_post_listed_unless_dated_today_witness :
  In (Fixture.today_post, comment_count Fixture.site Fixture.today_post)
    (IndexListView_get_queryset Fixture.next_noon Fixture.site)
  <-> date (pub_date Fixture.today_post) <> date Fixture.next_noon.
Proof.
  apply visible_post_listed_unless_dated_today.
  - left; reflexivity.
  - reflexivity.
Defined.

Lemma insert_desc_sorted (x : Post * Z) (l : list (Post * Z)) :
  newest_first l -> newest_first (insert_desc x l).
Proof.
  unfold newest_first. induction 1 as [|y l Hl IH Hy]; cbn.
  - repeat constructor.
  - destruct (Z.leb_spec (pub_date y.1) (pub_date x.1)) as [Hle|Hlt].
    + constructor; [by constructor|]. constructor; [done|].
      eapply Forall_impl; [exact Hy|]. cbn. intros; lia.
    + constructor; [done|]. rewrite List.Forall_forall. intros z Hz.
      apply insert_desc_In in Hz as [->|Hz]; [lia|].
      rewrite List.Forall_forall in Hy. by apply Hy.
Qed.

Lemma order_by_sorted (l : list (Post * Z)) : newest_first (order_by_pub_date_desc l).
Proof.
  induction l as [|x l IH]; cbn; [constructor|]. by apply insert_desc_sorted.
Qed.

Lemma insert_desc_perm (x : Post * Z) (l : list (Post * Z)) :
  Permutation (insert_desc x l) (x :: l).
Proof.
  induction l as [|y l IH]; cbn; [done|].
  destruct (pub_date y.1 <=? pub_date x.1); [done|].
  rewrite IH. apply perm_swap.
Qed.

Lemma order_by_perm (l : list (Post * Z)) : Permutation (order_by_pub_date_desc l) l.
Proof.
  induction l as [|x l IH]; cbn; [done|]. by rewrite insert_desc_perm, IH.
Qed.

Lemma page_sorted (kwargs : gmap string pyval) (request : HttpRequest)
    (queryset page_obj : list (Post * Z)) :
  newest_first queryset ->
  paginate_queryset kwargs request queryset = Ok page_obj ->
  newest_first page_obj.
Proof.
  intros Hs (k & -> & _)%paginate_queryset_Ok. unfold newest_first in *.
  rewrite <- (take_drop (k * paginate_by) queryset) in Hs.
  apply StronglySorted_app_1_r in Hs.
  rewrite <- (take_drop paginate_by (drop _ queryset)) in Hs.
  by apply StronglySorted_app_1_l in Hs.
Qed.

Lemma page_length {A : Type} (kwargs : gmap string pyval) (request : HttpRequest)
    (queryset page_obj : list A) :
  paginate_queryset kwargs request queryset = Ok page_obj ->
  (List.length page_obj <= paginate_by)%nat.
Proof. intros (k & -> & _)%paginate_queryset_Ok. apply firstn_le_length. Qed.

(** X9: the page that the index, a category listing or a profile listing
    hands to its template holds at most ten rows, ordered from the newest
    date to the oldest. *)
Theorem listing_pages_are_short_and_newest_first (now : Z) (db db' : DB)
    (request : HttpRequest) (kwargs : gmap string pyval) (template : string)
    (page_obj : list (Post * Z)) :
  IndexListView now db request kwargs
  = (TemplateResponse template (IndexContext page_obj), db')
  \/ (exists shown, CategoryPostsView now db request kwargs
                    = (TemplateResponse template (CategoryContext page_obj shown), db'))
  \/ (exists owner, ProfileListView db request kwargs
                    = (TemplateResponse template (ProfileContext page_obj owner), db')) ->
  (List.length page_obj <= 10)%nat /\ newest_first page_obj.
Proof.
  intros [H|[[shown H]|[owner H]]].
  - unfold IndexListView in H. destruct (method request); [|discriminate].
    destruct (paginate_queryset _ _ _) as [page|e] eqn:Hpage; cbn in H;
      [|destruct e; discriminate].
    injection H as _ <- _. split; [by eapply page_length|].
    eapply page_sorted; [|exact Hpage]. apply order_by_sorted.
  - unfold CategoryPostsView in H. destruct (method request); [|discriminate].
    destruct (CategoryPostsView_get_queryset now db kwargs) as [qs|e] eqn:Hqs;
      cbn in H; [|destruct e; discriminate].
    destruct (paginate_queryset _ _ _) as [page|e] eqn:Hpage; cbn in H;
      [|destruct e; discriminate].
    destruct (getitem kwargs "category_slug") as [v|e]; cbn in H;
      [|destruct e; discriminate].
    destruct (get_object_or_404 _) as [c|e]; cbn in H; [|destruct e; discriminate].
    injection H as _ <- _ _. split; [by eapply page_length|].
    eapply page_sorted; [|exact Hpage].
    unfold CategoryPostsView_get_queryset in Hqs.
    destruct (getitem kwargs "category_slug"); cbn in Hqs; [|discriminate].
    injection Hqs as <-. apply order_by_sorted.
  - unfold ProfileListView in H. destruct (method request); [|discriminate].
    destruct (ProfileListView_get_queryset db kwargs) as [qs|e] eqn:Hqs;
      cbn in H; [|destruct e; discriminate].
    destruct (paginate_queryset _ _ _) as [page|e] eqn:Hpage; cbn in H;
      [|destruct e; discriminate].
    destruct (getitem kwargs "username") as [v|e]; cbn in H;
      [|destruct e; discriminate].
    destruct (get_object_or_404 _) as [c|e]; cbn in H; [|destruct e; discriminate].
    injection H as _ <- _ _. split; [by eapply page_length|].
    eapply page_sorted; [|exact Hpage].
    unfold ProfileListView_get_queryset in Hqs.
    destruct (getitem kwargs "username"); cbn in Hqs; [|discriminate].
    destruct (get_object_or_404 _); cbn in Hqs; [|discriminate].
    injection Hqs as <-. apply order_by_sorted.
Qed.

Lemma listing_pages_are_short_and_newest_first_witness :
  (List.length [(Fixture.today_post, 1%Z); (Fixture.draft_post, 0%Z)] <= 10)%nat
  /\ newest_first [(Fixture.today_post, 1); (Fixture.draft_post, 0)].
Proof.
  apply (listing_pages_are_short_and_newest_first Fixture.noon Fixture.site Fixture.site
           (Fixture.request GET None "/profile/alice/" ∅)
           {[ "username" := PStr "alice" ]} "blog/profile.html").
  right; right. exists Fixture.alice. vm_compute. reflexivity.
Defined.

(** X10: no post is listed twice: in a site whose posts have distinct
    keys, the index has no two rows of one key, and the rows it has under
    the key of a visible post that is not dated on the current day are one
    row, the post itself with the count of the comments associated with
    it. *)
Theorem index_lists_each_post_once (now : Z) (db : DB) :
  NoDup (List.map post_id (posts db)) ->
  NoDup (List.map (fun row => post_id row.1) (IndexListView_get_queryset now db))
  /\ (forall p, In p (posts db) ->
        publicly_visible now db p = true ->
        date (pub_date p) <> date now ->
        List.filter (fun row => post_id row.1 =? post_id p)
          (IndexListView_get_queryset now db)
        = [(p, associated_comments (post_id p) (comment_rows db))]).
Proof.
  intros Hnd.
  assert (Hkeys : NoDup (List.map (fun row : Post * Z => post_id row.1)
                           (IndexListView_get_queryset now db))).
  { unfold IndexListView_get_queryset. rewrite order_by_perm.
    unfold annotate. rewrite List.map_map. cbn. by apply NoDup_map_filter. }
  split; [exact Hkeys|]. intros p Hin Hvis Hday.
  rewrite <- comment_count_associated.
  apply (filter_pk_unique (fun row : Post * Z => post_id row.1) _ (p, comment_count db p));
    [exact Hkeys|].
  unfold publicly_visible in Hvis.
  apply andb_true_iff in Hvis as [[Hpub Hdate]%andb_true_iff Hcat].
  apply Z.leb_le, date_le in Hdate.
  apply index_lists_iff. repeat split; try done. lia.
Qed.

Lemma index_lists_each_post_once_witness :
  List.filter (fun row => post_id row.1 =? 3)
    (IndexListView_get_queryset Fixture.next_noon Fixture.busy_site)
  = [(Fixture.old_post, 2)]
  /\ List.filter (fun row => post_id row.1 =? 1)
       (IndexListView_get_queryset Fixture.next_noon Fixture.busy_site)
     = [(Fixture.today_post, 1)]
  /\ List.length (IndexListView_get_queryset Fixture.next_noon Fixture.busy_site) = 2%nat.
Proof.
  destruct (index_lists_each_post_once Fixture.next_noon Fixture.busy_site)
    as [_ Honce]; [decide_closed|].
  split; [|split].
  - apply (Honce Fixture.old_post).
    + right; right; left; reflexivity.
    + reflexivity.
    + vm_compute. discriminate.
  - apply (Honce Fixture.today_post).
    + left; reflexivity.
    + reflexivity.
    + vm_compute. discriminate.
  - reflexivity.
Defined.

(** X11: the profile listing of a name that no user carries answers
    NotFound and writes nothing. *)
Theorem profile_of_unknown_user_not_found (db : DB) (request : HttpRequest)
    (kwargs : gmap string pyval) (v : pyval) :
  kwargs !! "username" = Some v ->
  method request = GET ->
  (forall u, In u (users db) -> username u <> str v) ->
  ProfileListView db request kwargs = (HttpResponseNotFound, db).
Proof.
  intros Hv Hget Hnone. unfold ProfileListView, ProfileListView_get_queryset, getitem.
  rewrite Hget, Hv. cbn. rewrite filter_none; [done|].
  intros u Hu. apply bool_decide_eq_false_2. by apply Hnone.
Qed.

Lemma profile_of_unknown_user_not_found_witness :
  ProfileListView Fixture.site (Fixture.request GET None "/profile/carol/" ∅)
    {[ "username" := PStr "carol" ]}
  = (HttpResponseNotFound, Fixture.site).
Proof.
  apply (profile_of_unknown_user_not_found _ _ _ (PStr "carol")).
  - reflexivity.
  - reflexivity.
  - intros u [<-|[<-|[]]]; discriminate.
Defined.

(** ** The detail page, continued *)

Lemma filter_sublist {A : Type} (f : A -> bool) (l : list A) :
  List.filter f l `sublist_of` l.
Proof.
  induction l as [|x l IH]; cbn; [constructor|].
  destruct (f x); by constructor.
Qed.

(** X12: a post of the site that passes the visibility predicate is shown
    to every logged-in requester, together with the comment rows of the
    site whose post it is, those and no others, in the order of the
    table. *)
Theorem visible_post_shown_to_logged_in (now : Z) (db : DB) (request : HttpRequest)
    (kwargs : gmap string pyval) (p : Post) (u : User) :
  NoDup (List.map post_id (posts db)) ->
  In p (posts db) ->
  publicly_visible now db p = true ->
  user request = Some u ->
  method request = GET ->
  kwargs !! "post_id" = Some (PInt (post_id p)) ->
  exists shown,
    PostDetailView now db request kwargs
    = (TemplateResponse "blog/detail.html" (DetailContext p shown), db)
    /\ (forall c, In c shown <-> In c (comment_rows db) /\ comments c = post_id p)
    /\ shown `sublist_of` comment_rows db.
Proof.
  intros Hnd Hin Hvis Huser Hget Hkw.
  assert (Hobj : PostDetailView_get_object now db request kwargs = Ok p).
  { unfold PostDetailView_get_object, getitem. rewrite Hkw. cbn.
    rewrite (get_by_key_or_404_pk post_id (posts db) p Hnd Hin). cbn.
    destruct (is_user (author p) (user request)); [done|].
    apply (get_object_or_404_pk post_id).
    - by apply NoDup_map_filter.
    - apply filter_In. split; [done|exact Hvis]. }
  exists (related_comments db p). split; [|split].
  - unfold PostDetailView, LoginRequiredMixin_dispatch.
    rewrite Huser, Hget, Hobj. reflexivity.
  - intros c. unfold related_comments. by rewrite filter_In, Z.eqb_eq.
  - apply filter_sublist.
Qed.

Lemma visible_post_shown_to_logged_in_witness :
  exists shown,
    PostDetailView Fixture.noon Fixture.busy_site
      (Fixture.request GET (Some Fixture.alice) "/posts/3/" ∅) {[ "post_id" := PInt 3 ]}
    = (TemplateResponse "blog/detail.html" (DetailContext Fixture.old_post shown),
       Fixture.busy_site)
    /\ In (Fixture.alice_comment 8) shown /\ In (Fixture.alice_comment 9) shown
    /\ ~ In Fixture.bob_comment shown.
Proof.
  destruct (visible_post_shown_to_logged_in Fixture.noon Fixture.busy_site
              (Fixture.request GET (Some Fixture.alice) "/posts/3/" ∅)
              {[ "post_id" := PInt 3 ]} Fixture.old_post Fixture.alice)
    as (shown & Hout & Hmem & _).
  - decide_closed.
  - right; right; left; reflexivity.
  - reflexivity.
  - reflexivity.
  - reflexivity.
  - reflexivity.
  - exists shown. split; [exact Hout|]. repeat split.
    + apply Hmem. split; [right; left; reflexivity|reflexivity].
    + apply Hmem. split; [right; right; left; reflexivity|reflexivity].
    + intros H. apply Hmem in H as [_ H]. discriminate H.
Defined.

(** ** Targets that do not exist *)

Lemma fits_int64_true (n : Z) : - 2 ^ 63 <= n < 2 ^ 63 -> fits_int64 n = true.
Proof. intros H. unfold fits_int64. apply andb_true_iff. split; lia. Qed.

Lemma fits_int64_false (n : Z) : n < - 2 ^ 63 \/ 2 ^ 63 <= n -> fits_int64 n = false.
Proof. intros H. unfold fits_int64. apply andb_false_iff. lia. Qed.

Lemma get_object_missing {A : Type} (pk : A -> Z) (table : list A) (name : string)
    (kwargs : gmap string pyval) (n : Z) :
  kwargs !! name = Some (PInt n) ->
  (forall row, In row table -> pk row <> n) ->
  get_object pk table name kwargs
  = if fits_int64 n then Raise Http404 else Raise OverflowError.
Proof.
  intros Hkw Hnone. unfold get_object. rewrite Hkw. cbn.
  by apply get_by_key_or_404_missing.
Qed.

(** X13: when no post has the key in the route and the key fits in 64
    bits, the detail page answers the GET of a logged-in requester with
    NotFound, and the routes to edit the post, to delete it and to comment
    on it answer every requester, logged in or not, with NotFound.  For a
    wider key the lookup itself fails and these routes answer with a
    server error.  Nothing is written either way. *)
Theorem missing_post_not_found (V : Validators) (now : Z) (db : DB)
    (request : HttpRequest) (kwargs : gmap string pyval) (n : Z) :
  kwargs !! "post_id" = Some (PInt n) ->
  (forall p, In p (posts db) -> post_id p <> n) ->
  (- 2 ^ 63 <= n < 2 ^ 63 ->
   (is_Some (user request) -> method request = GET ->
    PostDetailView now db request kwargs = (HttpResponseNotFound, db))
   /\ PostEditView V db request kwargs = (HttpResponseNotFound, db)
   /\ PostDeleteView db request kwargs = (HttpResponseNotFound, db)
   /\ CreateCommentView V now db request kwargs = (HttpResponseNotFound, db))
  /\ (n < - 2 ^ 63 \/ 2 ^ 63 <= n ->
      (is_Some (user request) -> method request = GET ->
       PostDetailView now db request kwargs
       = (HttpResponseServerError OverflowError, db))
      /\ PostEditView V db request kwargs = (HttpResponseServerError OverflowError, db)
      /\ PostDeleteView db request kwargs = (HttpResponseServerError OverflowError, db)
      /\ CreateCommentView V now db request kwargs
         = (HttpResponseServerError OverflowError, db)).
Proof.
  intros Hkw Hnone.
  pose proof (get_object_missing post_id (posts db) "post_id" kwargs n Hkw Hnone) as Hobj.
  pose proof (get_by_key_or_404_missing post_id n (posts db) Hnone) as Hkey.
  fold (PostMixin_get_object db kwargs) in Hobj.
  split; intros Hn;
    [rewrite (fits_int64_true n Hn) in Hobj, Hkey
    |rewrite (fits_int64_false n Hn) in Hobj, Hkey];
    (split; [|split; [|split]]).
  - intros [u Hu] Hget. unfold PostDetailView, LoginRequiredMixin_dispatch,
      PostDetailView_get_object, getitem.
    rewrite Hu, Hkw, Hget. cbn. by rewrite Hkey.
  - unfold PostEditView. by rewrite Hobj.
  - unfold PostDeleteView. by rewrite Hobj.
  - unfold CreateCommentView, getitem. rewrite Hkw. cbn. by rewrite Hkey.
  - intros [u Hu] Hget. unfold PostDetailView, LoginRequiredMixin_dispatch,
      PostDetailView_get_object, getitem.
    rewrite Hu, Hkw, Hget. cbn. by rewrite Hkey.
  - unfold PostEditView. by rewrite Hobj.
  - unfold PostDeleteView. by rewrite Hobj.
  - unfold CreateCommentView, getitem. rewrite Hkw. cbn. by rewrite Hkey.
Qed.

Lemma missing_post_not_found_witness :
  CreateCommentView Fixture.validators Fixture.noon Fixture.site
    (Fixture.request POST None "/posts/9/comment/" {[ "text" := PStr "Hi" ]})
    {[ "post_id" := PInt 9 ]}
  = (HttpResponseNotFound, Fixture.site)
  /\ PostEditView Fixture.validators Fixture.site
       (Fixture.request GET None "/posts/9223372036854775808/edit/" ∅)
       {[ "post_id" := PInt (2 ^ 63) ]}
     = (HttpResponseServerError OverflowError, Fixture.site).
Proof.
  split.
  - destruct (missing_post_not_found Fixture.validators Fixture.noon Fixture.site
                (Fixture.request POST None "/posts/9/comment/" {[ "text" := PStr "Hi" ]})
                {[ "post_id" := PInt 9 ]} 9) as [Hfits _].
    + reflexivity.
    + intros p [<-|[<-|[]]]; discriminate.
    + apply Hfits. lia.
  - destruct (missing_post_not_found Fixture.validators Fixture.noon Fixture.site
                (Fixture.request GET None "/posts/9223372036854775808/edit/" ∅)
                {[ "post_id" := PInt (2 ^ 63) ]} (2 ^ 63)) as [_ Hwide].
    + reflexivity.
    + intros p [<-|[<-|[]]]; discriminate.
    + apply Hwide. right. lia.
Defined.

(** X14: when no comment has the key in the route and the key fits in 64
    bits, the routes to edit and to delete a comment answer every requester
    with NotFound, whatever post the route names; for a wider key they
    answer with a server error.  Nothing is written either way. *)
Theorem missing_comment_not_found (V : Validators) (db : DB)
    (request : HttpRequest) (kwargs : gmap string pyval) (n : Z) :
  kwargs !! "comment_id" = Some (PInt n) ->
  (forall c, In c (comment_rows db) -> comment_id c <> n) ->
  (- 2 ^ 63 <= n < 2 ^ 63 ->
   CommentEditView V db request kwargs = (HttpResponseNotFound, db)
   /\ CommentDeleteView db request kwargs = (HttpResponseNotFound, db))
  /\ (n < - 2 ^ 63 \/ 2 ^ 63 <= n ->
      CommentEditView V db request kwargs = (HttpResponseServerError OverflowError, db)
      /\ CommentDeleteView db request kwargs
         = (HttpResponseServerError OverflowError, db)).
Proof.
  intros Hkw Hnone.
  pose proof (get_object_missing comment_id (comment_rows db) "comment_id" kwargs n
                Hkw Hnone) as Hobj.
  fold (Comment_get_object db kwargs) in Hobj.
  split; intros Hn;
    [rewrite (fits_int64_true n Hn) in Hobj|rewrite (fits_int64_false n Hn) in Hobj];
    unfold CommentEditView, CommentDeleteView; by rewrite Hobj.
Qed.

Lemma missing_comment_not_found_witness :
  CommentDeleteView Fixture.site (Fixture.edit_comment_request (Some Fixture.bob))
    {[ "post_id" := PInt 1; "comment_id" := PInt 8 ]}
  = (HttpResponseNotFound, Fixture.site)
  /\ CommentDeleteView Fixture.site (Fixture.edit_comment_request (Some Fixture.bob))
       {[ "post_id" := PInt 1; "comment_id" := PInt (2 ^ 63) ]}
     = (HttpResponseServerError OverflowError, Fixture.site).
Proof.
  split.
  - destruct (missing_comment_not_found Fixture.validators Fixture.site
                (Fixture.edit_comment_request (Some Fixture.bob))
                {[ "post_id" := PInt 1; "comment_id" := PInt 8 ]} 8) as [Hfits _].
    + reflexivity.
    + intros c [<-|[]]; discriminate.
    + apply Hfits. lia.
  - destruct (missing_comment_not_found Fixture.validators Fixture.site
                (Fixture.edit_comment_request (Some Fixture.bob))
                {[ "post_id" := PInt 1; "comment_id" := PInt (2 ^ 63) ]} (2 ^ 63))
      as [_ Hwide].
    + reflexivity.
    + intros c [<-|[]]; discriminate.
    + apply Hwide. right. lia.
Defined.

(** ** The author edits and deletes *)

Lemma filter_all {A : Type} (f : A -> bool) (l : list A) :
  (forall x, In x l -> f x = true) -> List.filter f l = l.
Proof.
  induction l as [|x l IH]; intros H; [done|]. cbn.
  rewrite (H x (or_introl eq_refl)). f_equal. apply IH. intros y Hy. apply H. by right.
Qed.

(** X15: when the author of a post submits its edit form, a valid payload
    replaces the row by one with the same key and the same author that
    carries the cleaned values, leaves every other post and every comment,
    and redirects to the detail page.  A refused payload writes nothing
    and shows the form again; the row the form then holds keeps the key
    and the author and carries, over the stored values, the values of the
    fields that were accepted. *)
Theorem author_edits_own_post (V : Validators) (db : DB) (request : HttpRequest)
    (kwargs : gmap string pyval) (p : Post) (u : User) :
  NoDup (List.map post_id (posts db)) ->
  In p (posts db) ->
  0 <= post_id p ->
  kwargs !! "post_id" = Some (PInt (post_id p)) ->
  user request = Some u ->
  author p = user_id u ->
  method request = POST ->
  (forall cleaned, PostForm_is_valid V db (data request) = Some cleaned ->
     exists new,
       PostEditView V db request kwargs
       = (HttpResponseRedirect (post_detail_url (post_id p)), update_post db new)
       /\ In new (posts (update_post db new))
       /\ post_id new = post_id p /\ author new = author p
       /\ title new = d_title cleaned /\ text new = d_text cleaned
       /\ pub_date new = d_pub_date cleaned
       /\ is_published new = d_is_published cleaned
       /\ category new = d_category cleaned /\ location new = d_location cleaned
       /\ (forall q, In q (posts (update_post db new))
                     <-> q = new \/ (In q (posts db) /\ post_id q <> post_id p))
       /\ comment_rows (update_post db new) = comment_rows db)
  /\ (forall accepted,
        PostForm_is_valid V db (data request) = None ->
        accepted_Post V db (value_from_datadict PostForm_fields (data request)) = accepted ->
        exists shown,
          PostEditView V db request kwargs
          = (TemplateResponse "blog/create.html"
               (PostFormContext {| instance := Some shown; bound := Some (data request) |}),
             db)
          /\ post_id shown = post_id p /\ author shown = author p
          /\ title shown = default (title p) (a_title accepted)
          /\ text shown = default (text p) (a_text accepted)
          /\ pub_date shown = default (pub_date p) (a_pub_date accepted)
          /\ is_published shown = default (is_published p) (a_is_published accepted)
          /\ category shown = default (category p) (a_category accepted)
          /\ location shown = default (location p) (a_location accepted)).
Proof.
  intros Hnd Hin Hpos Hkw Hu Hauthor Hpost.
  assert (Hobj : PostMixin_get_object db kwargs = Ok p) by (by apply get_object_pk).
  assert (Hown : is_user (author p) (user request) = true).
  { rewrite Hu, Hauthor. apply is_user_self. }
  unfold PostEditView, LoginRequiredMixin_dispatch.
  rewrite Hobj, Hpost. cbn -[update_post]. rewrite Hown, Hu. cbn -[update_post].
  split.
  - intros cleaned ->. exists (PostForm_construct_instance p cleaned).
    unfold getitem. rewrite Hkw. cbn -[update_post].
    rewrite reverse_post_detail by done. cbn -[update_post].
    split; [done|].
    assert (Hmem : forall q,
              In q (posts (update_post db (PostForm_construct_instance p cleaned)))
              <-> q = PostForm_construct_instance p cleaned
                  \/ (In q (posts db) /\ post_id q <> post_id p)).
    { intros q. cbn. rewrite in_map_iff. split.
      - intros (r & <- & Hr).
        destruct (Z.eqb_spec (post_id r) (post_id p)) as [Heq|Hne]; [by left|].
        right. done.
      - intros [->|[Hq Hne]].
        + exists p. by rewrite Z.eqb_refl.
        + exists q. split; [|done]. by apply Z.eqb_neq in Hne as ->. }
    split; [apply Hmem; by left|]. repeat split; try done; apply Hmem.
  - intros accepted -> <-. eexists. split; [reflexivity|]. repeat split.
Qed.

Lemma author_edits_own_post_witness :
  (exists new,
     PostEditView Fixture.validators Fixture.site
       (Fixture.request POST (Some Fixture.alice) "/posts/2/edit/" Fixture.create_payload)
       {[ "post_id" := PInt 2 ]}
     = (HttpResponseRedirect (post_detail_url 2), update_post Fixture.site new)
     /\ post_id new = 2 /\ author new = 1 /\ title new = "Hello")
  /\ (exists shown,
        PostEditView Fixture.validators Fixture.site
          (Fixture.request POST (Some Fixture.alice) "/posts/2/edit/"
             {[ "title" := PStr "Mine" ]})
          {[ "post_id" := PInt 2 ]}
        = (TemplateResponse "blog/create.html"
             (PostFormContext
                {| instance := Some shown;
                   bound := Some {[ "title" := PStr "Mine" ]} |}),
           Fixture.site)
        /\ title shown = "Mine" /\ text shown = "Not yet" /\ author shown = 1
        /\ title Fixture.draft_post = "Draft").
Proof.
  split.
  - destruct (author_edits_own_post Fixture.validators Fixture.site
                (Fixture.request POST (Some Fixture.alice) "/posts/2/edit/"
                   Fixture.create_payload)
                {[ "post_id" := PInt 2 ]} Fixture.draft_post Fixture.alice)
      as [Hvalid _].
    + decide_closed.
    + right; left; reflexivity.
    + cbn; lia.
    + reflexivity.
    + reflexivity.
    + reflexivity.
    + reflexivity.
    + destruct (Hvalid _ eq_refl) as (new & Hout & _ & Hid & Hauthor & Htitle & _).
      exists new. split; [exact Hout|]. split; [exact Hid|].
      split; [exact Hauthor|exact Htitle].
  - destruct (author_edits_own_post Fixture.validators Fixture.site
                (Fixture.request POST (Some Fixture.alice) "/posts/2/edit/"
                   {[ "title" := PStr "Mine" ]})
                {[ "post_id" := PInt 2 ]} Fixture.draft_post Fixture.alice)
      as [_ Hrefused].
    + decide_closed.
    + right; left; reflexivity.
    + cbn; lia.
    + reflexivity.
    + reflexivity.
    + reflexivity.
    + reflexivity.
    + destruct (Hrefused _ eq_refl eq_refl)
        as (shown & Hout & _ & Hauthor & Htitle & Htext & _).
      exists shown. split; [exact Hout|]. split; [exact Htitle|].
      split; [exact Htext|]. split; [exact Hauthor|reflexivity].
Defined.

(** X16: when the author of a post confirms its deletion, every row with
    the key of the post leaves the table, every other post stays, the
    response redirects to the index, and the detail page of the key (a
    key of 64 bits) then answers a logged-in requester with NotFound; the
    GET that asks for the confirmation writes nothing. *)
Theorem author_deletes_own_post (now : Z) (db : DB) (request next : HttpRequest)
    (kwargs : gmap string pyval) (p : Post) (u : User) :
  NoDup (List.map post_id (posts db)) ->
  In p (posts db) ->
  kwargs !! "post_id" = Some (PInt (post_id p)) ->
  user request = Some u ->
  author p = user_id u ->
  (method request = GET ->
   PostDeleteView db request kwargs
   = (TemplateResponse "blog/create.html" (PostDeleteContext p), db))
  /\ (method request = POST ->
      (PostDeleteView db request kwargs).1 = HttpResponseRedirect "/"
      /\ (forall q, In q (posts (PostDeleteView db request kwargs).2)
                    <-> In q (posts db) /\ post_id q <> post_id p)
      /\ users (PostDeleteView db request kwargs).2 = users db
      /\ (is_Some (user next) -> method next = GET ->
          - 2 ^ 63 <= post_id p < 2 ^ 63 ->
          PostDetailView now (PostDeleteView db request kwargs).2 next kwargs
          = (HttpResponseNotFound, (PostDeleteView db request kwargs).2))).
Proof.
  intros Hnd Hin Hkw Hu Hauthor.
  assert (Hobj : PostMixin_get_object db kwargs = Ok p) by (by apply get_object_pk).
  assert (Hown : is_user (author p) (user request) = true).
  { rewrite Hu, Hauthor. apply is_user_self. }
  split.
  - intros Hget. unfold PostDeleteView, LoginRequiredMixin_dispatch.
    rewrite Hobj, Hget. cbn. rewrite Hown, Hu. reflexivity.
  - intros Hpost.
    assert (Hout : PostDeleteView db request kwargs
                   = (HttpResponseRedirect "/", delete_post_row db p)).
    { unfold PostDeleteView, LoginRequiredMixin_dispatch.
      rewrite Hobj, Hpost. cbn -[delete_post_row]. rewrite Hown, Hu. reflexivity. }
    rewrite Hout. cbn [fst snd].
    assert (Hmem : forall q, In q (posts (delete_post_row db p))
                             <-> In q (posts db) /\ post_id q <> post_id p).
    { intros q. cbn. rewrite filter_In, negb_true_iff, Z.eqb_neq. done. }
    split; [done|]. split; [exact Hmem|]. split; [done|].
    intros [w Hw] Hget Hfits.
    unfold PostDetailView, LoginRequiredMixin_dispatch, PostDetailView_get_object, getitem.
    rewrite Hw, Hget, Hkw. cbn -[delete_post_row].
    rewrite (get_by_key_or_404_missing post_id (post_id p) (posts (delete_post_row db p)))
      by (intros q Hq; by apply Hmem in Hq as [_ Hne]).
    by rewrite fits_int64_true.
Qed.

Lemma author_deletes_own_post_witness :
  (PostDeleteView Fixture.site
     (Fixture.request POST (Some Fixture.alice) "/posts/2/delete/" ∅)
     {[ "post_id" := PInt 2 ]}).1
  = HttpResponseRedirect "/"
  /\ PostDetailView Fixture.noon
       (PostDeleteView Fixture.site
          (Fixture.request POST (Some Fixture.alice) "/posts/2/delete/" ∅)
          {[ "post_id" := PInt 2 ]}).2
       (Fixture.request GET (Some Fixture.alice) "/posts/2/" ∅)
       {[ "post_id" := PInt 2 ]}
     = (HttpResponseNotFound,
        (PostDeleteView Fixture.site
           (Fixture.request POST (Some Fixture.alice) "/posts/2/delete/" ∅)
           {[ "post_id" := PInt 2 ]}).2).
Proof.
  destruct (author_deletes_own_post Fixture.noon Fixture.site
              (Fixture.request POST (Some Fixture.alice) "/posts/2/delete/" ∅)
              (Fixture.request GET (Some Fixture.alice) "/posts/2/" ∅)
              {[ "post_id" := PInt 2 ]} Fixture.draft_post Fixture.alice)
    as [_ Hpost].
  - decide_closed.
  - right; left; reflexivity.
  - reflexivity.
  - reflexivity.
  - reflexivity.
  - destruct (Hpost eq_refl) as (Hout & _ & _ & Hnext).
    split; [exact Hout|]. apply Hnext; [by eexists|reflexivity|cbn; lia].
Defined.

(** ** Comments and their counts *)

Lemma count_after_snoc (g : Comment -> bool) (l : list Comment) (row : Comment) :
  Z.of_nat (List.length (List.filter g (l ++ [row])))
  = Z.of_nat (List.length (List.filter g l)) + (if g row then 1 else 0).
Proof.
  rewrite List.filter_app, List.length_app. cbn. destruct (g row); cbn; lia.
Qed.

Lemma count_after_replace (g : Comment -> bool) (l : list Comment) (old new : Comment) :
  NoDup (List.map comment_id l) -> In old l ->
  comment_id new = comment_id old -> g new = g old ->
  List.length
    (List.filter g (List.map (fun c => if comment_id c =? comment_id new then new else c) l))
  = List.length (List.filter g l).
Proof.
  intros Hnd Hold Hid Hg. rewrite Hid.
  assert (H : forall c, In c l ->
            g (if comment_id c =? comment_id old then new else c) = g c).
  { intros c Hc. destruct (Z.eqb_spec (comment_id c) (comment_id old)) as [Heq|_]; [|done].
    apply (pk_inj comment_id l old c Hnd Hold Hc) in Heq. by subst c. }
  clear Hnd Hold. induction l as [|c l IH]; [done|]. cbn.
  rewrite (H c (or_introl eq_refl)).
  destruct (g c); cbn; rewrite IH; try done; intros c' Hc'; apply H; by right.
Qed.

Lemma count_after_delete (g : Comment -> bool) (l : list Comment) (c : Comment) :
  NoDup (List.map comment_id l) -> In c l ->
  Z.of_nat (List.length
              (List.filter g
                 (List.filter (fun x => negb (comment_id x =? comment_id c)) l)))
  = Z.of_nat (List.length (List.filter g l)) - (if g c then 1 else 0).
Proof.
  induction l as [|x l IH]; intros Hnd Hin; [destruct Hin|].
  apply NoDup_cons in Hnd as [Hx Hnd]. cbn [List.filter].
  destruct Hin as [->|Hin].
  - rewrite Z.eqb_refl. cbn [negb].
    rewrite (filter_all (fun x => negb (comment_id x =? comment_id c)) l).
    + destruct (g c); cbn [List.length]; lia.
    + intros y Hy. apply negb_true_iff, Z.eqb_neq. intros Heq.
      apply Hx. rewrite <- Heq. apply list_elem_of_In, in_map, Hy.
  - destruct (Z.eqb_spec (comment_id x) (comment_id c)) as [Heq|Hne].
    + exfalso. apply Hx. rewrite Heq. apply list_elem_of_In, in_map, Hin.
    + cbn [negb List.filter]. specialize (IH Hnd Hin).
      destruct (g x); cbn [List.length]; lia.
Qed.

(** X17: a comment that a logged-in user adds to a post raises the comment
    count of that post by one and leaves the count of every post with
    another key; the new row is the last of the comments of the post, takes
    the next key of the sequence and the current time. *)
Theorem added_comment_is_counted (V : Validators) (now : Z) (db : DB)
    (request : HttpRequest) (kwargs : gmap string pyval) (p : Post) (u : User)
    (cleaned : string) :
  NoDup (List.map post_id (posts db)) ->
  In p (posts db) ->
  kwargs !! "post_id" = Some (PInt (post_id p)) ->
  user request = Some u ->
  method request = POST ->
  CommentForm_is_valid V (data request) = Some cleaned ->
  (forall q,
     comment_count (CreateCommentView V now db request kwargs).2 q
     = comment_count db q + (if post_id q =? post_id p then 1 else 0))
  /\ related_comments (CreateCommentView V now db request kwargs).2 p
     = related_comments db p
       ++ [{| comment_id := comment_seq db + 1; comment_text := cleaned;
              comment_author := user_id u; comments := post_id p;
              created_at := now |}].
Proof.
  intros Hnd Hin Hkw Hu Hm Hvalid.
  assert (Hdb : (CreateCommentView V now db request kwargs).2
                = (insert_comment db
                     {| comment_id := 0; comment_text := cleaned;
                        comment_author := user_id u; comments := post_id p;
                        created_at := now |}).2).
  { unfold CreateCommentView, getitem. rewrite Hkw. cbn -[CreateCommentView_form_valid].
    rewrite (get_by_key_or_404_pk post_id (posts db) p Hnd Hin).
    cbn -[CreateCommentView_form_valid].
    unfold LoginRequiredMixin_dispatch. rewrite Hu, Hm, Hvalid.
    by rewrite CreateCommentView_form_valid_snd. }
  rewrite Hdb. split.
  - intros q. unfold comment_count. cbn. rewrite count_after_snoc. cbn.
    by rewrite (Z.eqb_sym (post_id p)).
  - unfold related_comments. cbn. rewrite List.filter_app. cbn.
    by rewrite Z.eqb_refl.
Qed.

Lemma added_comment_is_counted_witness :
  comment_count
    (CreateCommentView Fixture.validators Fixture.noon Fixture.site
       Fixture.add_comment_request {[ "post_id" := PInt 1 ]}).2 Fixture.today_post
  = comment_count Fixture.site Fixture.today_post + 1.
Proof.
  destruct (added_comment_is_counted Fixture.validators Fixture.noon Fixture.site
              Fixture.add_comment_request {[ "post_id" := PInt 1 ]}
              Fixture.today_post Fixture.alice "Thanks") as [Hcount _].
  - decide_closed.
  - left; reflexivity.
  - reflexivity.
  - reflexivity.
  - reflexivity.
  - reflexivity.
  - exact (Hcount Fixture.today_post).
Defined.

(** X18: when the author of a comment submits its edit form, a valid
    payload changes the text of that comment and nothing else: its key, its
    author, its post and its date stay, as do the other comments, the posts
    and the comment count of every post; a refused payload shows the form
    again and writes nothing. *)
Theorem author_edits_own_comment (V : Validators) (db : DB) (request : HttpRequest)
    (kwargs : gmap string pyval) (c : Comment) (u : User) :
  NoDup (List.map comment_id (comment_rows db)) ->
  In c (comment_rows db) ->
  0 <= comment_id c ->
  kwargs !! "comment_id" = Some (PInt (comment_id c)) ->
  user request = Some u ->
  comment_author c = user_id u ->
  method request = POST ->
  (forall cleaned, CommentForm_is_valid V (data request) = Some cleaned ->
     let new := {| comment_id := comment_id c; comment_text := cleaned;
                   comment_author := comment_author c; comments := comments c;
                   created_at := created_at c |} in
     CommentEditView V db request kwargs
     = (HttpResponseRedirect (post_detail_url (comment_id c)), update_comment db new)
     /\ (forall x, In x (comment_rows (update_comment db new))
                   <-> x = new \/ (In x (comment_rows db) /\ comment_id x <> comment_id c))
     /\ posts (update_comment db new) = posts db
     /\ forall q, comment_count (update_comment db new) q = comment_count db q)
  /\ (CommentForm_is_valid V (data request) = None ->
      CommentEditView V db request kwargs
      = (TemplateResponse "blog/comment.html"
           (CommentFormContext {| instance := Some c; bound := Some (data request) |}),
         db)).
Proof.
  intros Hnd Hin Hpos Hkw Hu Hauthor Hpost.
  assert (Hobj : Comment_get_object db kwargs = Ok c) by (by apply get_object_pk).
  assert (Hown : is_user (comment_author c) (user request) = true).
  { rewrite Hu, Hauthor. apply is_user_self. }
  unfold CommentEditView. rewrite Hobj, Hpost. cbn -[update_comment].
  rewrite Hown. cbn -[update_comment].
  split; [|by intros ->].
  intros cleaned ->.
  unfold getitem. rewrite Hkw. cbn -[update_comment].
  rewrite reverse_post_detail by done. cbn -[update_comment].
  split; [done|]. split; [|split; [done|]].
  - intros x. cbn. rewrite in_map_iff. split.
    + intros (r & <- & Hr).
      destruct (Z.eqb_spec (comment_id r) (comment_id c)) as [Heq|Hne]; [by left|].
      by right.
    + intros [->|[Hx Hne]].
      * exists c. by rewrite Z.eqb_refl.
      * exists x. split; [|done]. by apply Z.eqb_neq in Hne as ->.
  - intros q. unfold comment_count. f_equal.
    by apply (count_after_replace _ _ c).
Qed.

Lemma author_edits_own_comment_witness :
  CommentEditView Fixture.validators Fixture.site
    (Fixture.edit_comment_request (Some Fixture.bob)) Fixture.comment_kwargs
  = (HttpResponseRedirect (post_detail_url 7),
     update_comment Fixture.site
       {| comment_id := 7; comment_text := "Very nice"; comment_author := 2;
          comments := 1; created_at := Fixture.morning + 60 |}).
Proof.
  destruct (author_edits_own_comment Fixture.validators Fixture.site
              (Fixture.edit_comment_request (Some Fixture.bob)) Fixture.comment_kwargs
              Fixture.bob_comment Fixture.bob) as [Hvalid _].
  - decide_closed.
  - left; reflexivity.
  - cbn; lia.
  - reflexivity.
  - reflexivity.
  - reflexivity.
  - reflexivity.
  - exact (proj1 (Hvalid "Very nice" eq_refl)).
Defined.

(** X19: when the author of a comment confirms its deletion, that comment
    leaves the table, every other comment and every post stays, and the
    comment count of its post drops by one while the other counts stay; the
    GET that asks for the confirmation writes nothing. *)
Theorem author_deletes_own_comment (db : DB) (request : HttpRequest)
    (kwargs : gmap string pyval) (c : Comment) (u : User) :
  NoDup (List.map comment_id (comment_rows db)) ->
  In c (comment_rows db) ->
  0 <= comment_id c ->
  kwargs !! "comment_id" = Some (PInt (comment_id c)) ->
  user request = Some u ->
  comment_author c = user_id u ->
  (method request = GET ->
   CommentDeleteView db request kwargs
   = (TemplateResponse "blog/comment.html" (CommentDeleteContext c), db))
  /\ (method request = POST ->
      CommentDeleteView db request kwargs
      = (HttpResponseRedirect (post_detail_url (comment_id c)), delete_comment_row db c)
      /\ (forall x, In x (comment_rows (delete_comment_row db c))
                    <-> In x (comment_rows db) /\ x <> c)
      /\ posts (delete_comment_row db c) = posts db
      /\ forall q, comment_count (delete_comment_row db c) q
                   = comment_count db q - (if comments c =? post_id q then 1 else 0)).
Proof.
  intros Hnd Hin Hpos Hkw Hu Hauthor.
  assert (Hobj : Comment_get_object db kwargs = Ok c) by (by apply get_object_pk).
  assert (Hown : is_user (comment_author c) (user request) = true).
  { rewrite Hu, Hauthor. apply is_user_self. }
  unfold CommentDeleteView. rewrite Hobj. cbn -[delete_comment_row].
  rewrite Hown. cbn -[delete_comment_row].
  split; [by intros ->|]. intros ->.
  unfold getitem. rewrite Hkw. cbn -[delete_comment_row].
  rewrite reverse_post_detail by done. cbn -[delete_comment_row].
  split; [done|]. split; [|split; [done|]].
  - intros x. cbn. rewrite filter_In, negb_true_iff, Z.eqb_neq.
    split; intros [Hx Hne]; (split; [done|]).
    + by intros ->.
    + intros Heq. apply Hne. by apply (pk_inj comment_id _ c x Hnd Hin Hx).
  - intros q. unfold comment_count. cbn. by apply count_after_delete.
Qed.

Lemma author_deletes_own_comment_witness :
  CommentDeleteView Fixture.site (Fixture.edit_comment_request (Some Fixture.bob))
    Fixture.comment_kwargs
  = (HttpResponseRedirect (post_detail_url 7),
     delete_comment_row Fixture.site Fixture.bob_comment)
  /\ comment_count (delete_comment_row Fixture.site Fixture.bob_comment) Fixture.today_post
     = comment_count Fixture.site Fixture.today_post - 1.
Proof.
  destruct (author_deletes_own_comment Fixture.site
              (Fixture.edit_comment_request (Some Fixture.bob)) Fixture.comment_kwargs
              Fixture.bob_comment Fixture.bob) as [_ Hpost].
  - decide_closed.
  - left; reflexivity.
  - cbn; lia.
  - reflexivity.
  - reflexivity.
  - reflexivity.
  - destruct (Hpost eq_refl) as (Hout & _ & _ & Hcount).
    split; [exact Hout|exact (Hcount Fixture.today_post)].
Defined.

(** ** The redirect to the profile *)

Lemma reverse_profile (s : string) :
  reverse profile {[ "username" := PStr s ]}
  = if nonempty_all is_slug_char s then Ok ("/profile/" +:+ s +:+ "/")
    else Raise NoReverseMatch.
Proof.
  unfold reverse. rewrite map_size_singleton. cbn.
  rewrite lookup_singleton_eq. cbn.
  by destruct (nonempty_all is_slug_char s).
Qed.

(** X20: a valid post creation appends one post of the requester and
    answers with the redirect to the profile of the requester when the
    user name is a slug; when it is not (a dot, an at sign), the profile
    route cannot be reversed: the post is saved all the same and the
    response is a server error. *)
Theorem post_creation_saves_then_redirects (V : Validators) (db : DB)
    (request : HttpRequest) (kwargs : gmap string pyval) (u : User)
    (cleaned : PostData) :
  user request = Some u ->
  method request = POST ->
  PostForm_is_valid V db (data request) = Some cleaned ->
  let row := {| post_id := post_seq db + 1; title := d_title cleaned;
                text := d_text cleaned; pub_date := d_pub_date cleaned;
                is_published := d_is_published cleaned; author := user_id u;
                category := d_category cleaned; location := d_location cleaned |} in
  posts (PostCreateView V db request kwargs).2 = posts db ++ [row]
  /\ post_seq (PostCreateView V db request kwargs).2 = post_seq db + 1
  /\ comment_rows (PostCreateView V db request kwargs).2 = comment_rows db
  /\ (PostCreateView V db request kwargs).1
     = if nonempty_all is_slug_char (username u)
       then HttpResponseRedirect ("/profile/" +:+ username u +:+ "/")
       else HttpResponseServerError NoReverseMatch.
Proof.
  intros Hu Hm Hvalid row.
  unfold PostCreateView, LoginRequiredMixin_dispatch. rewrite Hu, Hm, Hvalid.
  unfold PostCreateView_form_valid. rewrite reverse_profile. cbn.
  by destruct (nonempty_all is_slug_char (username u)).
Qed.

Lemma post_creation_saves_then_redirects_witness :
  posts (PostCreateView Fixture.validators Fixture.site Fixture.honest_create ∅).2
  = posts Fixture.site
    ++ [{| post_id := 3; title := "Hello"; text := "World"; pub_date := 5;
           is_published := false; author := 2; category := 1; location := None |}]
  /\ (PostCreateView Fixture.validators Fixture.site Fixture.honest_create ∅).1
     = HttpResponseRedirect "/profile/bob/".
Proof.
  destruct (post_creation_saves_then_redirects Fixture.validators Fixture.site
              Fixture.honest_create ∅ Fixture.bob
              {| d_title := "Hello"; d_text := "World"; d_pub_date := 5;
                 d_is_published := false; d_category := 1; d_location := None |})
    as (Hposts & _ & _ & Hresp).
  - reflexivity.
  - reflexivity.
  - vm_compute. reflexivity.
  - split; [exact Hposts|exact Hresp].
Defined.

(** X21: a valid profile edit rewrites the row of the requester under its
    own key with the cleaned values, leaves posts and comments (which name
    their author by key), and redirects to the profile of the new user
    name when that name is a slug; when it is not, the row is saved all the
    same and the response is a server error.  A refused payload writes
    nothing and shows the form again; the user the form then holds, which
    is the requester itself, keeps the key and carries, over the stored
    values, the values of the fields that were accepted. *)
Theorem profile_edit_saves_then_redirects (V : Validators) (db : DB)
    (request : HttpRequest) (kwargs : gmap string pyval) (u : User) :
  user request = Some u ->
  method request = POST ->
  (forall cleaned, EditProfileForm_is_valid V db u (data request) = Some cleaned ->
     let new := {| user_id := user_id u; username := d_username cleaned;
                   first_name := d_first_name cleaned; last_name := d_last_name cleaned;
                   email := d_email cleaned |} in
     (ProfileEditView V db request kwargs).2 = update_user db new
     /\ (In u (users db) -> In new (users (update_user db new)))
     /\ posts (update_user db new) = posts db
     /\ comment_rows (update_user db new) = comment_rows db
     /\ (ProfileEditView V db request kwargs).1
        = if nonempty_all is_slug_char (d_username cleaned)
          then HttpResponseRedirect ("/profile/" +:+ d_username cleaned +:+ "/")
          else HttpResponseServerError NoReverseMatch)
  /\ (forall accepted,
        EditProfileForm_is_valid V db u (data request) = None ->
        accepted_User V db u (value_from_datadict EditProfileForm_fields (data request))
        = accepted ->
        exists shown,
          ProfileEditView V db request kwargs
          = (TemplateResponse "blog/user.html"
               (ProfileFormContext
                  {| instance := Some shown; bound := Some (data request) |}),
             db)
          /\ user_id shown = user_id u
          /\ username shown = default (username u) (a_username accepted)
          /\ first_name shown = default (first_name u) (a_first_name accepted)
          /\ last_name shown = default (last_name u) (a_last_name accepted)
          /\ email shown = default (email u) (a_email accepted)).
Proof.
  intros Hu Hm. unfold ProfileEditView, LoginRequiredMixin_dispatch. rewrite Hu, Hm.
  split; [|intros accepted -> <-; eexists; split; [reflexivity|]; repeat split].
  intros cleaned Hvalid. rewrite Hvalid.
  unfold EditProfileForm_construct_instance. cbn [username].
  rewrite reverse_profile.
  split; [by destruct (nonempty_all _ _)|].
  split.
  - intros Hin. cbn. apply in_map_iff. exists u. by rewrite Z.eqb_refl.
  - repeat split. by destruct (nonempty_all _ _).
Qed.

Lemma profile_edit_saves_then_redirects_witness :
  (ProfileEditView Fixture.validators Fixture.site
     (Fixture.request POST (Some Fixture.bob) "/profile/edit/"
        {[ "username" := PStr "b.ob" ]}) ∅).2
  = update_user Fixture.site
      {| user_id := 2; username := "b.ob"; first_name := ""; last_name := "";
         email := "" |}
  /\ (ProfileEditView Fixture.validators Fixture.site
        (Fixture.request POST (Some Fixture.bob) "/profile/edit/"
           {[ "username" := PStr "b.ob" ]}) ∅).1
     = HttpResponseServerError NoReverseMatch
  /\ (exists shown,
        ProfileEditView Fixture.validators Fixture.site
          (Fixture.request POST (Some Fixture.bob) "/profile/edit/"
             {[ "first_name" := PStr "Robert" ]}) ∅
        = (TemplateResponse "blog/user.html"
             (ProfileFormContext
                {| instance := Some shown;
                   bound := Some {[ "first_name" := PStr "Robert" ]} |}),
           Fixture.site)
        /\ user_id shown = 2 /\ username shown = "bob"
        /\ first_name shown = "Robert" /\ last_name shown = ""
        /\ first_name Fixture.bob = "Bob").
Proof.
  destruct (profile_edit_saves_then_redirects Fixture.validators Fixture.site
              (Fixture.request POST (Some Fixture.bob) "/profile/edit/"
                 {[ "username" := PStr "b.ob" ]}) ∅ Fixture.bob eq_refl eq_refl)
    as [Hvalid _].
  destruct (profile_edit_saves_then_redirects Fixture.validators Fixture.site
              (Fixture.request POST (Some Fixture.bob) "/profile/edit/"
                 {[ "first_name" := PStr "Robert" ]}) ∅ Fixture.bob eq_refl eq_refl)
    as [_ Hrefused].
  destruct (Hvalid {| d_username := "b.ob"; d_first_name := ""; d_last_name := "";
                      d_email := "" |}) as (Hdb & _ & _ & _ & Hresp);
    [vm_compute; reflexivity|].
  destruct (Hrefused {| a_username := None; a_first_name := Some "Robert";
                        a_last_name := Some ""; a_email := Some "" |})
    as (shown & Hout & Hid & Hname & Hfirst & Hlast & _);
    [vm_compute; reflexivity|vm_compute; reflexivity|].
  split; [exact Hdb|]. split; [exact Hresp|].
  exists shown. split; [exact Hout|].
  split; [exact Hid|]. split; [exact Hname|]. split; [exact Hfirst|].
  split; [exact Hlast|reflexivity].
Defined.

(** ** Where the redirect of the comment views leads *)

Lemma append_slash_inj (s t : string) : s +:+ "/" = t +:+ "/" -> s = t.
Proof.
  revert t. induction s as [|a s IH]; intros [|b t]; cbn; try done.
  - intros [= _ H]. by destruct t.
  - intros [= _ H]. by destruct s.
  - intros [= -> H]. f_equal. by apply IH.
Qed.

(** Posts with different keys have different detail pages. *)
Lemma post_detail_url_inj (n m : Z) : post_detail_url n = post_detail_url m -> n = m.
Proof.
  unfold post_detail_url. cbn. intros [= H].
  apply append_slash_inj in H. by apply (inj pretty).
Qed.

(** X22: a POST to the route that deletes a comment is answered with the
    same redirect whether or not the requester is the author, and that
    redirect is the detail page of the post the comment belongs to only
    when the key of the comment happens to be the key of that post. *)
Theorem comment_delete_redirect_leads_to_own_post_iff (db : DB) (request : HttpRequest)
    (kwargs : gmap string pyval) (c : Comment) :
  NoDup (List.map comment_id (comment_rows db)) ->
  In c (comment_rows db) ->
  0 <= comment_id c ->
  kwargs !! "comment_id" = Some (PInt (comment_id c)) ->
  method request = POST ->
  (CommentDeleteView db request kwargs).1
  = HttpResponseRedirect (post_detail_url (comment_id c))
  /\ ((CommentDeleteView db request kwargs).1
      = HttpResponseRedirect (post_detail_url (comments c))
      <-> comment_id c = comments c).
Proof.
  intros Hnd Hin Hpos Hkw Hpost.
  assert (Hobj : Comment_get_object db kwargs = Ok c) by (by apply get_object_pk).
  assert (Hresp : (CommentDeleteView db request kwargs).1
                  = HttpResponseRedirect (post_detail_url (comment_id c))).
  { unfold CommentDeleteView. rewrite Hobj, Hpost. cbn -[delete_comment_row].
    unfold getitem. rewrite Hkw. cbn -[delete_comment_row].
    destruct (is_user (comment_author c) (user request)); cbn -[delete_comment_row].
    - by rewrite reverse_post_detail.
    - by rewrite redirect_post_detail. }
  split; [exact Hresp|]. rewrite Hresp. split.
  - intros H. apply post_detail_url_inj. congruence.
  - by intros ->.
Qed.

Lemma comment_delete_redirect_leads_to_own_post_iff_witness :
  (CommentDeleteView Fixture.site (Fixture.edit_comment_request (Some Fixture.bob))
     Fixture.comment_kwargs).1
  <> HttpResponseRedirect (post_detail_url (comments Fixture.bob_comment)).
Proof.
  destruct (comment_delete_redirect_leads_to_own_post_iff Fixture.site
              (Fixture.edit_comment_request (Some Fixture.bob)) Fixture.comment_kwargs
              Fixture.bob_comment) as [_ Hiff].
  - decide_closed.
  - left; reflexivity.
  - cbn; lia.
  - reflexivity.
  - reflexivity.
  - intros H. apply Hiff in H. discriminate H.
Defined.

(** ** Forms read their own fields, continued *)

(** X23: what a form-backed view writes depends on the payload only through
    the fields of its form: [text] for adding and editing a comment, the
    four profile fields for the profile, every post field but [author] for
    editing a post. *)
Theorem views_write_from_form_fields_only (V : Validators) (now : Z) (db : DB)
    (request request' : HttpRequest) (kwargs : gmap string pyval) :
  method request = method request' ->
  user request = user request' ->
  (data request !! "text" = data request' !! "text" ->
   (CreateCommentView V now db request kwargs).2
   = (CreateCommentView V now db request' kwargs).2
   /\ (CommentEditView V db request kwargs).2 = (CommentEditView V db request' kwargs).2)
  /\ ((forall k, k ∈ EditProfileForm_fields -> data request !! k = data request' !! k) ->
      (ProfileEditView V db request kwargs).2 = (ProfileEditView V db request' kwargs).2)
  /\ ((forall k, k <> "author" -> data request !! k = data request' !! k) ->
      (PostEditView V db request kwargs).2 = (PostEditView V db request' kwargs).2).
Proof.
  intros Hm Hu. split; [|split].
  - intros Htext.
    assert (Hvalid : CommentForm_is_valid V (data request)
                     = CommentForm_is_valid V (data request')).
    { unfold CommentForm_is_valid. f_equal. apply value_from_datadict_agree.
      by intros k ->%list_elem_of_singleton. }
    split.
    + unfold CreateCommentView, CreateCommentView_form_valid,
        LoginRequiredMixin_dispatch, run, respond, getitem, mbind, result_bind.
      rewrite <- Hm, <- Hu, <- Hvalid.
      repeat (innermost_case; cbn); reflexivity.
    + unfold CommentEditView, run, respond, redirect, getitem, mbind, result_bind.
      rewrite <- Hm, <- Hu, <- Hvalid.
      repeat (innermost_case; cbn); reflexivity.
  - intros Hagree.
    unfold ProfileEditView, LoginRequiredMixin_dispatch, respond, mbind, result_bind.
    rewrite <- Hm, <- Hu. destruct (user request) as [u|]; [|done].
    assert (Hvalid : EditProfileForm_is_valid V db u (data request)
                     = EditProfileForm_is_valid V db u (data request')).
    { unfold EditProfileForm_is_valid. f_equal. by apply value_from_datadict_agree. }
    rewrite <- Hvalid.
    repeat (innermost_case; cbn); reflexivity.
  - intros Hagree.
    unfold PostEditView, LoginRequiredMixin_dispatch, run, respond, redirect, getitem,
      mbind, result_bind.
    rewrite <- Hm, <- Hu, <- (PostForm_ignores_author V db _ _ Hagree).
    repeat (innermost_case; cbn); reflexivity.
Qed.

Lemma views_write_from_form_fields_only_witness :
  (CommentEditView Fixture.validators Fixture.site
     (Fixture.edit_comment_request (Some Fixture.bob)) Fixture.comment_kwargs).2
  = (CommentEditView Fixture.validators Fixture.site
       (Fixture.request POST (Some Fixture.bob) "/posts/1/7/eit_comment/"
          {[ "text" := PStr "Very nice"; "author" := PInt 1; "comments" := PInt 2 ]})
       Fixture.comment_kwargs).2.
Proof.
  destruct (views_write_from_form_fields_only Fixture.validators Fixture.noon
              Fixture.site (Fixture.edit_comment_request (Some Fixture.bob))
              (Fixture.request POST (Some Fixture.bob) "/posts/1/7/eit_comment/"
                 {[ "text" := PStr "Very nice"; "author" := PInt 1;
                    "comments" := PInt 2 ]})
              Fixture.comment_kwargs) as [Hcomment _].
  - reflexivity.
  - reflexivity.
  - apply Hcomment. reflexivity.
Defined.

(** ** Pages of the index *)

(** X24: the index without a page number shows the first ten rows of its
    query set; a page number below one, a page number whose rows would lie
    behind the last row, or a page text that is neither a number nor
    [last], is answered with NotFound. *)
Theorem index_page_requests (now : Z) (db : DB) (request : HttpRequest)
    (kwargs : gmap string pyval) :
  method request = GET ->
  kwargs !! "page" = None ->
  (query request !! "page" = None ->
   IndexListView now db request kwargs
   = (TemplateResponse "blog/index.html"
        (IndexContext (take 10 (IndexListView_get_queryset now db))), db))
  /\ (forall k, query request !! "page" = Some (PInt k) ->
        k < 1
        \/ (1 < k /\ Z.of_nat (List.length (IndexListView_get_queryset now db))
                     <= (k - 1) * 10) ->
        IndexListView now db request kwargs = (HttpResponseNotFound, db))
  /\ (forall s, query request !! "page" = Some (PStr s) ->
        s <> "" -> s <> "last" ->
        IndexListView now db request kwargs = (HttpResponseNotFound, db)).
Proof.
  intros Hget Hkw. unfold IndexListView, paginate_queryset, requested_page.
  rewrite Hget, Hkw. split; [|split].
  - intros ->. cbn -[num_pages].
    assert (Hlast : (num_pages (List.length (IndexListView_get_queryset now db)) <? 1)
                    = false) by (apply Z.ltb_ge; unfold num_pages; lia).
    by rewrite Hlast.
  - intros k -> Hout. cbn -[num_pages].
    destruct (Z.ltb_spec k 1) as [?|?]; [done|]. cbn -[num_pages].
    destruct Hout as [?|[Hk Hlen]]; [lia|].
    destruct (Z.ltb_spec (num_pages (List.length (IndexListView_get_queryset now db))) k)
      as [?|Hle]; [done|].
    exfalso. unfold num_pages, paginate_by in Hle.
    change (Z.of_nat 10) with 10 in Hle.
    assert (Hdiv : (Z.of_nat (List.length (IndexListView_get_queryset now db)) + 10 - 1) / 10
                   <= ((k - 1) * 10 + 9) / 10) by (apply Z.div_le_mono; lia).
    replace (((k - 1) * 10 + 9) / 10) with (k - 1) in Hdiv
      by (apply Z.div_unique with 9; lia).
    lia.
  - intros s -> Hs Hlast. cbn -[num_pages].
    rewrite bool_decide_eq_false_2 by done. cbn -[num_pages].
    by rewrite bool_decide_eq_false_2.
Qed.

Lemma index_page_requests_witness :
  IndexListView Fixture.next_noon Fixture.site
    (with_query (Fixture.request GET None "/" ∅) {[ "page" := PInt 2 ]}) ∅
  = (HttpResponseNotFound, Fixture.site).
Proof.
  destruct (index_page_requests Fixture.next_noon Fixture.site
              (with_query (Fixture.request GET None "/" ∅) {[ "page" := PInt 2 ]}) ∅)
    as (_ & Hnumber & _).
  - reflexivity.
  - reflexivity.
  - apply (Hnumber 2); [reflexivity|]. right. vm_compute. split; [reflexivity|discriminate].
Defined.
